(** * Building-management controller (assignment5.py)

    A shallow embedding of the controller's Python code and the proofs of
    its specified properties.

    Modelling conventions.
    - Python [int] is [Z].  A Python [float] is represented by the
      rational number it denotes, in [Q].  The temperature arithmetic of
      the sensor filter is binary64 arithmetic: every operation rounds its
      exact result to the nearest double, ties to even ([fl]).  The
      weather index and the comparison of clock values are computed on
      the exact values.  [round] is Python's round-half-to-even.
    - The module-level globals and the devices they drive are the fields
      of one record, [state]; every Python function that touches them is
      a computation in the state monad [M].
    - Each handler and each loop iteration is one atomic step; values
      that come from the environment (a sensor reading, the PIR level,
      the clock) are arguments of the step, and the reads that really
      happen are recorded in the field [reads].
    - [time.sleep] only delays; it is kept as a step without effect.
    - A line of log.txt is represented by its message; the wall-clock
      prefix written by [log_event] is left out. *)

From Stdlib Require Import ZArith QArith Qround Qabs List Ascii String DecimalString Bool Lia Lqa.
Import ListNotations.

Open Scope string_scope.
Open Scope Z_scope.
Open Scope list_scope.

(** ** Numbers *)

(** Python's [round(x)] on a float: nearest integer, ties to even. *)
Definition py_round (x : Q) : Z :=
  let f := Qfloor x in
  match Qcompare (x - inject_Z f) (1 # 2) with
  | Lt => f
  | Gt => f + 1
  | Eq => if Z.even f then f else f + 1
  end.

(** [2 ** e] as a rational, for any integer [e]. *)
Definition pow2 (e : Z) : Q :=
  if 0 <=? e then inject_Z (2 ^ e) else 1 # Z.to_pos (2 ^ (- e)).

(** The exponent [e] with [2 ** e <= |x| < 2 ** (e + 1)], for [x] not 0:
    the difference of the bit lengths of numerator and denominator, or
    one less. *)
Definition binade (x : Q) : Z :=
  let e := Z.log2 (Z.abs (Qnum x)) - Z.log2 (Zpos (Qden x)) in
  if Qle_bool (pow2 e) (Qabs x) then e else e - 1.

(** The double nearest to [x]: [x] is rounded to 53 significant bits
    (to a multiple of 2 ** -1074 in the subnormal range), ties to the
    even significand.  Doubles are finite here: no value the filter
    handles comes near the overflow threshold 2 ** 1024. *)
Definition fl (x : Q) : Q :=
  if Qnum x =? 0 then 0%Q
  else
    let e := Z.max (binade x - 52) (-1074) in
    Qred (inject_Z (py_round (x / pow2 e)) * pow2 e).

(** [x + y], [x * y] and [x / y] on floats: the exact result, rounded. *)
Definition fadd (x y : Q) : Q := fl (x + y).
Definition fmul (x y : Q) : Q := fl (x * y).
Definition fdiv (x y : Q) : Q := fl (x / y).

(** Python's [sum(xs)] on floats: starts from 0 and adds from the left,
    rounding after each addition (the accumulation loop of CPython up to
    3.11; from 3.12 on the interpreter compensates the rounding errors of
    the additions, which can change the last bit of the sum). *)
Definition py_sum (xs : list Q) : Q := fold_left fadd xs 0%Q.

(** [x > y] on floats. *)
Definition Qgtb (x y : Q) : bool := negb (Qle_bool x y).

(** [str(n)] for an int, as used inside f-strings. *)
Definition str_of_Z (z : Z) : string := NilZero.string_of_int (Z.to_int z).

(** ** Devices and shared state *)

Inductive led := RedLed | BlueLed | GreenLed.

Inductive lcd_op :=
| LcdClear
| LcdWrite (x y : Z) (text : string).

Inductive read_op := ReadDHT | ReadPIR | ReadClock.

(** [collections.deque(maxlen=3)]: appending to a full deque drops the
    element at the left end. *)
Definition deque_maxlen : nat := 3.

Definition deque_append (x : Q) (d : list Q) : list Q :=
  if (List.length d <? deque_maxlen)%nat then d ++ [x] else tl d ++ [x].

Record state := mkState {
  (* globals, lines 33-39 *)
  temperature_readings : list Q;
  desired_temp : Z;
  ambient_light_on : bool;
  door_open : bool;
  last_motion_time : Q;
  fire_alarm_active : bool;
  hvac_state : string;
  (* outputs: True when the LED is lit *)
  red_led : bool;      (* heating *)
  blue_led : bool;     (* cooling *)
  green_led : bool;    (* ambient light *)
  lcd : list lcd_op;   (* commands sent to the display, oldest first *)
  log : list string;   (* messages appended to log.txt, oldest first *)
  reads : list read_op (* sensor and clock reads, oldest first *)
}.

Definition set_temperature_readings v s :=
  mkState v (desired_temp s) (ambient_light_on s) (door_open s) (last_motion_time s)
    (fire_alarm_active s) (hvac_state s) (red_led s) (blue_led s) (green_led s)
    (lcd s) (log s) (reads s).
Definition set_desired_temp v s :=
  mkState (temperature_readings s) v (ambient_light_on s) (door_open s) (last_motion_time s)
    (fire_alarm_active s) (hvac_state s) (red_led s) (blue_led s) (green_led s)
    (lcd s) (log s) (reads s).
Definition set_ambient_light_on v s :=
  mkState (temperature_readings s) (desired_temp s) v (door_open s) (last_motion_time s)
    (fire_alarm_active s) (hvac_state s) (red_led s) (blue_led s) (green_led s)
    (lcd s) (log s) (reads s).
Definition set_door_open v s :=
  mkState (temperature_readings s) (desired_temp s) (ambient_light_on s) v (last_motion_time s)
    (fire_alarm_active s) (hvac_state s) (red_led s) (blue_led s) (green_led s)
    (lcd s) (log s) (reads s).
Definition set_last_motion_time v s :=
  mkState (temperature_readings s) (desired_temp s) (ambient_light_on s) (door_open s) v
    (fire_alarm_active s) (hvac_state s) (red_led s) (blue_led s) (green_led s)
    (lcd s) (log s) (reads s).
Definition set_fire_alarm_active v s :=
  mkState (temperature_readings s) (desired_temp s) (ambient_light_on s) (door_open s)
    (last_motion_time s) v (hvac_state s) (red_led s) (blue_led s) (green_led s)
    (lcd s) (log s) (reads s).
Definition set_hvac_state v s :=
  mkState (temperature_readings s) (desired_temp s) (ambient_light_on s) (door_open s)
    (last_motion_time s) (fire_alarm_active s) v (red_led s) (blue_led s) (green_led s)
    (lcd s) (log s) (reads s).
Definition set_red_led v s :=
  mkState (temperature_readings s) (desired_temp s) (ambient_light_on s) (door_open s)
    (last_motion_time s) (fire_alarm_active s) (hvac_state s) v (blue_led s) (green_led s)
    (lcd s) (log s) (reads s).
Definition set_blue_led v s :=
  mkState (temperature_readings s) (desired_temp s) (ambient_light_on s) (door_open s)
    (last_motion_time s) (fire_alarm_active s) (hvac_state s) (red_led s) v (green_led s)
    (lcd s) (log s) (reads s).
Definition set_green_led v s :=
  mkState (temperature_readings s) (desired_temp s) (ambient_light_on s) (door_open s)
    (last_motion_time s) (fire_alarm_active s) (hvac_state s) (red_led s) (blue_led s) v
    (lcd s) (log s) (reads s).
Definition set_lcd v s :=
  mkState (temperature_readings s) (desired_temp s) (ambient_light_on s) (door_open s)
    (last_motion_time s) (fire_alarm_active s) (hvac_state s) (red_led s) (blue_led s)
    (green_led s) v (log s) (reads s).
Definition set_log v s :=
  mkState (temperature_readings s) (desired_temp s) (ambient_light_on s) (door_open s)
    (last_motion_time s) (fire_alarm_active s) (hvac_state s) (red_led s) (blue_led s)
    (green_led s) (lcd s) v (reads s).
Definition set_reads v s :=
  mkState (temperature_readings s) (desired_temp s) (ambient_light_on s) (door_open s)
    (last_motion_time s) (fire_alarm_active s) (hvac_state s) (red_led s) (blue_led s)
    (green_led s) (lcd s) (log s) v.

(** ** The state monad *)

Definition M (A : Type) : Type := state -> A * state.

Definition ret {A} (a : A) : M A := fun s => (a, s).
Definition bind {A B} (m : M A) (k : A -> M B) : M B :=
  fun s => let (a, s') := m s in k a s'.
Definition gets {A} (f : state -> A) : M A := fun s => (f s, s).
Definition modify (f : state -> state) : M unit := fun s => (tt, f s).

(** The state after running [m] from [s], and the value it returns. *)
Definition exec {A} (m : M A) (s : state) : state := snd (m s).
Definition eval {A} (m : M A) (s : state) : A := fst (m s).

Declare Scope py_scope.
Delimit Scope py_scope with py.
Notation "x <- m ;; k" := (bind m (fun x => k))
  (at level 61, m at next level, right associativity) : py_scope.
Notation "m ;; k" := (bind m (fun _ => k))
  (at level 61, right associativity) : py_scope.
Open Scope py_scope.

Definition skip : M unit := ret tt.

(** ** Device operations *)

Definition led_set (l : led) (v : bool) : M unit :=
  match l with
  | RedLed => modify (set_red_led v)
  | BlueLed => modify (set_blue_led v)
  | GreenLed => modify (set_green_led v)
  end.

Definition led_on (l : led) : M unit := led_set l true.
Definition led_off (l : led) : M unit := led_set l false.

Definition led_toggle (l : led) : M unit :=
  match l with
  | RedLed => v <- gets red_led ;; modify (set_red_led (negb v))
  | BlueLed => v <- gets blue_led ;; modify (set_blue_led (negb v))
  | GreenLed => v <- gets green_led ;; modify (set_green_led (negb v))
  end.

Definition lcd_clear : M unit := modify (fun s => set_lcd (lcd s ++ [LcdClear]) s).
Definition lcd_write (x y : Z) (text : string) : M unit :=
  modify (fun s => set_lcd (lcd s ++ [LcdWrite x y text]) s).

Definition sleep (secs : Q) : M unit := skip.

Definition note_read (r : read_op) : M unit :=
  modify (fun s => set_reads (reads s ++ [r]) s).

(** [log_event(message)], lines 44-48. *)
Definition log_event (message : string) : M unit :=
  modify (fun s => set_log (log s ++ [message]) s).

(** ** Start-up *)

(** The module-level assignments of lines 33-39, with every LED dark and
    nothing yet sent to the display or the log. *)
Definition boot_state : state :=
  {| temperature_readings := [];
     desired_temp := 72;
     ambient_light_on := false;
     door_open := false;
     last_motion_time := 0%Q;
     fire_alarm_active := false;
     hvac_state := "OFF";
     red_led := false; blue_led := false; green_led := false;
     lcd := []; log := []; reads := [] |}.

(** [initialize_system()], lines 53-69.  Binding the three button
    callbacks changes no state; the presses are events below. *)
Definition initialize_system : M unit :=
  lcd_clear ;;
  lcd_write 0 0 "BMS Initializing" ;;
  led_off RedLed ;;
  led_off BlueLed ;;
  led_off GreenLed ;;
  sleep 2 ;;
  lcd_clear ;;
  lcd_write 0 0 "System Ready" ;;
  sleep 2 ;;
  lcd_clear.

(** ** Motion detection thread *)

(** [pir.motion_detected] and [time.time()]: the value is the one the
    environment supplies, and the read is recorded. *)
Definition pir_motion_detected (motion : bool) : M bool :=
  note_read ReadPIR ;; ret motion.
Definition time_time (now : Q) : M Q :=
  note_read ReadClock ;; ret now.

(** One iteration of the [while True] loop of [motion_monitor()],
    lines 78-89. *)
Definition motion_monitor_iteration (motion : bool) (now : Q) : M unit :=
  alarm <- gets fire_alarm_active ;;
  (if negb alarm then
     detected <- pir_motion_detected motion ;;
     if detected then
       light <- gets ambient_light_on ;;
       (if negb light then
          led_on GreenLed ;;
          modify (set_ambient_light_on true) ;;
          log_event "LIGHTS ON"
        else skip) ;;
       t <- time_time now ;;
       modify (set_last_motion_time t)
     else
       light <- gets ambient_light_on ;;
       if light then
         (* the right operand of [and] is evaluated only now *)
         t <- time_time now ;;
         last <- gets last_motion_time ;;
         if Qgtb (t - last) 10 then
           led_off GreenLed ;;
           modify (set_ambient_light_on false) ;;
           log_event "LIGHTS OFF"
         else skip
       else skip
   else skip) ;;
  sleep (2 # 10).

(** ** Fire alarm thread *)

(** One iteration of the loop of [fire_alarm_loop()], lines 97-104. *)
Definition fire_alarm_loop_iteration : M unit :=
  alarm <- gets fire_alarm_active ;;
  (if alarm then
     led_toggle GreenLed ;;
     led_toggle RedLed ;;
     led_toggle BlueLed ;;
     lcd_clear ;;
     lcd_write 0 0 "!!! FIRE ALERT !!!" ;;
     lcd_write 0 1 "DOOR: OPEN - EVAC"
   else skip) ;;
  sleep 1.

(** ** Door/window handler *)

(** [toggle_door_state()], lines 109-129. *)
Definition toggle_door_state : M unit :=
  d <- gets door_open ;;
  modify (set_door_open (negb d)) ;;
  lcd_clear ;;
  d <- gets door_open ;;
  (if d then
     lcd_write 0 0 "DOOR: OPEN" ;;
     h <- gets hvac_state ;;
     lcd_write 0 1 ("HVAC: " ++ h)%string ;;
     led_off RedLed ;;
     led_off BlueLed ;;
     log_event "DOOR OPEN" ;;
     log_event "HVAC OFF"
   else
     lcd_write 0 0 "DOOR: CLOSED" ;;
     h <- gets hvac_state ;;
     lcd_write 0 1 ("HVAC: " ++ h)%string ;;
     log_event "DOOR CLOSED") ;;
  sleep 3 ;;
  lcd_clear.

(** ** Temperature sensor *)

(** What the DHT11 driver answers to one [readDHT11()]: the status code
    (0 is success) and the temperature [getTemperature()] then gives, a
    float: [temp_c] stands for the double nearest to it. *)
Record dht_reading := mkReading {
  chk : Z;
  temp_c : Q
}.

(** [temp_c * 9 / 5 + 32], line 139: three float operations, from the
    left. *)
Definition fahrenheit (temp_c : Q) : Q :=
  fadd (fdiv (fmul (fl temp_c) 9) 5) 32.

(** [get_average_temperature()], lines 134-145. *)
Definition get_average_temperature (rd : dht_reading) : M (option Z) :=
  note_read ReadDHT ;;
  if chk rd =? 0 then
    let temp_f := fahrenheit (temp_c rd) in
    modify (fun s => set_temperature_readings
                       (deque_append temp_f (temperature_readings s)) s) ;;
    w <- gets temperature_readings ;;
    if (List.length w =? 3)%nat then
      ret (Some (py_round (fdiv (py_sum w) 3)))
    else ret None
  else ret None.

(** ** Temperature adjustment *)

(** [increase_desired_temp()], lines 166-170. *)
Definition increase_desired_temp : M unit :=
  t <- gets desired_temp ;;
  if t <? 99 then modify (set_desired_temp (t + 1)) else skip.

(** [decrease_desired_temp()], lines 172-176. *)
Definition decrease_desired_temp : M unit :=
  t <- gets desired_temp ;;
  if t >? 65 then modify (set_desired_temp (t - 1)) else skip.

(** ** Humidity via the weather API *)

(** A decoded JSON document, as [response.json()] builds it; an object is
    the list of the dict's items. *)
#[local] Set Warnings "-register-all".
Inductive json :=
| JNull
| JBool (b : bool)
| JInt (n : Z)
| JFloat (x : Q)
| JStr (s : string)
| JArr (elems : list json)
| JObj (items : list (string * json)).

Inductive exn :=
| RequestException   (* connection error, timeout, ... raised by requests.get *)
| JSONDecodeError
| KeyError
| TypeError.

(** A call either returns or raises. *)
Inductive result (A : Type) :=
| Ok (a : A)
| Raise (e : exn).
Arguments Ok {A} a.
Arguments Raise {A} e.

Definition rbind {A B} (m : result A) (k : A -> result B) : result B :=
  match m with
  | Ok a => k a
  | Raise e => Raise e
  end.
Notation "x <~ m ;; k" := (rbind m (fun x => k))
  (at level 61, m at next level, right associativity) : py_scope.

Fixpoint dict_get (items : list (string * json)) (key : string) : option json :=
  match items with
  | [] => None
  | (k, v) :: rest => if (k =? key)%string then Some v else dict_get rest key
  end.

(** [v[key]] with a [str] key: only a dict can be indexed that way. *)
Definition py_getitem (v : json) (key : string) : result json :=
  match v with
  | JObj items =>
      match dict_get items key with
      | Some x => Ok x
      | None => Raise KeyError
      end
  | _ => Raise TypeError
  end.

(** What [requests.get] hands back: the status code and what calling
    [.json()] on the response does. *)
Record response := mkResponse {
  status_code : Z;
  response_json : result json
}.

(** The [try] block of [get_humidity()], lines 153-158: [Ok (Some v)] is
    [return v], [Ok None] is leaving the block without returning. *)
Definition get_humidity_try (net : result response) : result (option json) :=
  r <~ net ;;
  if status_code r =? 200 then
    body <~ response_json r ;;
    main <~ py_getitem body "main" ;;
    h <~ py_getitem main "humidity" ;;
    Ok (Some h)
  else Ok None.

(** [get_humidity()], lines 150-161: the bare [except] swallows whatever
    was raised, and every path that has not returned ends in
    [return 55]. *)
Definition get_humidity (net : result response) : result json :=
  match get_humidity_try net with
  | Ok (Some v) => Ok v
  | Ok None => Ok (JInt 55)
  | Raise _ => Ok (JInt 55)
  end.

(** ** HVAC main loop *)

(** The fire-alarm block of [monitor_environment()], lines 193-208. *)
Definition alarm_check (wi : Z) : M unit :=
  if wi >? 90 then
    alarm <- gets fire_alarm_active ;;
    if negb alarm then
      modify (set_fire_alarm_active true) ;;
      modify (set_door_open true) ;;
      led_off RedLed ;;
      led_off BlueLed ;;
      log_event "FIRE ALARM ON" ;;
      log_event "HVAC OFF"
    else skip
  else
    alarm <- gets fire_alarm_active ;;
    if alarm && (wi <=? 90) then
      modify (set_fire_alarm_active false) ;;
      led_off GreenLed ;;
      log_event "FIRE ALARM OFF" ;;
      lcd_clear ;;
      lcd_write 0 0 "Fire Over" ;;
      lcd_write 0 1 "Resuming..." ;;
      sleep 3
    else skip.

(** The status display and HVAC block, lines 211-238. *)
Definition hvac_check (wi avg_temp : Z) : M unit :=
  alarm <- gets fire_alarm_active ;;
  if negb alarm then
    lcd_clear ;;
    h <- gets hvac_state ;;
    lcd_write 0 0 ("WI:" ++ str_of_Z wi ++ " T:" ++ str_of_Z avg_temp ++ " H:" ++ h)%string ;;
    sp <- gets desired_temp ;;
    light <- gets ambient_light_on ;;
    d <- gets door_open ;;
    lcd_write 0 1 ("Set:" ++ str_of_Z sp ++ " L:" ++ (if light then "ON" else "OFF")
                    ++ " D:" ++ (if d then "OPEN" else "CLOSED"))%string ;;
    prev_state <- gets hvac_state ;;
    d <- gets door_open ;;
    sp <- gets desired_temp ;;
    (if d then
       modify (set_hvac_state "OFF") ;;
       led_off RedLed ;;
       led_off BlueLed
     else if wi <? sp - 3 then
       modify (set_hvac_state "HEAT") ;;
       led_on RedLed ;;
       led_off BlueLed
     else if wi >? sp + 3 then
       modify (set_hvac_state "AC") ;;
       led_on BlueLed ;;
       led_off RedLed
     else
       modify (set_hvac_state "OFF") ;;
       led_off RedLed ;;
       led_off BlueLed) ;;
    h <- gets hvac_state ;;
    if negb (h =? prev_state)%string then log_event ("HVAC " ++ h)%string else skip
  else skip.

(** [wi = round(avg_temp + 0.05 * humidity)], line 190. *)
Definition weather_index (avg_temp : Z) (humidity : Q) : Z :=
  py_round (inject_Z avg_temp + (5 # 100) * humidity).

(** Lines 184-185, executed once before the loop: the humidity is
    fetched and [hvac_state] is reset. *)
Definition monitor_environment_start : M unit :=
  modify (set_hvac_state "OFF").

(** One iteration of the loop of [monitor_environment()], lines 188-240.
    [humidity] is the number fetched before the loop. *)
Definition monitor_iteration (humidity : Q) (rd : dht_reading) : M unit :=
  avg <- get_average_temperature rd ;;
  match avg with
  | Some avg_temp =>
      let wi := weather_index avg_temp humidity in
      alarm_check wi ;;
      hvac_check wi avg_temp
  | None => skip
  end ;;
  sleep 1.

(** ** The running system *)

(** The state in which the loops start: [initialize_system()] followed
    by the preamble of [monitor_environment()]. *)
Definition initial_state : state :=
  exec (initialize_system ;; monitor_environment_start) boot_state.

(** The steps the threads and the button callbacks take. *)
Inductive event :=
| ControlCycle (rd : dht_reading)       (* monitor_environment loop *)
| MotionPoll (motion : bool) (now : Q)  (* motion_monitor loop *)
| AlertTick                             (* fire_alarm_loop loop *)
| DoorPress                             (* door_button.when_pressed *)
| BluePress                             (* blue_button.when_pressed *)
| RedPress.                             (* red_button.when_pressed *)

Definition step (humidity : Q) (e : event) : M unit :=
  match e with
  | ControlCycle rd => monitor_iteration humidity rd
  | MotionPoll motion now => motion_monitor_iteration motion now
  | AlertTick => fire_alarm_loop_iteration
  | DoorPress => toggle_door_state
  | BluePress => increase_desired_temp
  | RedPress => decrease_desired_temp
  end.

(** Running a sequence of steps, one after the other. *)
Fixpoint run (humidity : Q) (evs : list event) (s : state) : state :=
  match evs with
  | [] => s
  | e :: rest => run humidity rest (exec (step humidity e) s)
  end.

Definition is_alert_tick (e : event) : bool :=
  match e with AlertTick => true | _ => false end.

(** ** Vocabulary of the statements *)

(** The average reported for a window: defined on three samples only. *)
Definition window_average (w : list Q) : option Z :=
  if (List.length w =? 3)%nat then Some (py_round (fdiv (py_sum w) 3)) else None.

(** The mode the HVAC block settles on and the three display commands
    it starts with; [hvac_check_exec] below proves that [hvac_check]
    computes them. *)
Definition hvac_target (wi : Z) (s : state) : string :=
  if door_open s then "OFF"
  else if wi <? desired_temp s - 3 then "HEAT"
  else if wi >? desired_temp s + 3 then "AC"
  else "OFF".

Definition status_lines (wi avg_temp : Z) (s : state) : list lcd_op :=
  [LcdClear;
   LcdWrite 0 0 ("WI:" ++ str_of_Z wi ++ " T:" ++ str_of_Z avg_temp
                 ++ " H:" ++ hvac_state s)%string;
   LcdWrite 0 1 ("Set:" ++ str_of_Z (desired_temp s) ++ " L:"
                 ++ (if ambient_light_on s then "ON" else "OFF") ++ " D:"
                 ++ (if door_open s then "OPEN" else "CLOSED"))%string].

(** Sample readings used in the concrete runs. *)
Definition cold_reading : dht_reading := mkReading 0 10.   (* 50 F *)
Definition hot_reading : dht_reading := mkReading 0 40.    (* 104 F *)

(** After three cold cycles the HVAC heats; two hot cycles later it
    cools, and the alarm has not fired yet. *)
Definition heating_state : state :=
  run 55 (repeat (ControlCycle cold_reading) 3) initial_state.
Definition cooling_state : state :=
  run 55 (repeat (ControlCycle hot_reading) 2) heating_state.



(** The contract as the specification words it: an integer in 0..100. *)
Definition humidity_in_range (r : result json) : Prop :=
  exists n, r = Ok (JInt n) /\ 0 <= n <= 100.

(** A well-formed reply whose humidity field is 150. *)
Definition reply_150 : result response :=
  Ok (mkResponse 200 (Ok (JObj [("main", JObj [("humidity", JInt 150)])]))).



(** The last three elements of a list (all of it when shorter). *)
Definition last3 {A} (l : list A) : list A := skipn (List.length l - 3) l.

(** Polls every 0.2 s: poll number [k] happens at time [k / 5]. *)
Definition poll_at (motion : bool) (k : nat) : event :=
  MotionPoll motion (inject_Z (Z.of_nat k) * (2 # 10)).
Definition polls (motion : bool) (first count : nat) : list event :=
  map (poll_at motion) (seq first count).

(** Motion present from 0 s to 5 s, then absent up to 14 s. *)
Definition presence_then_9s_absence : list event :=
  polls true 0 26 ++ polls false 26 45.

(** The light flag after each non-empty prefix of a run. *)
Definition light_after_each_prefix (evs : list event) : list bool :=
  map (fun n => ambient_light_on (run 55 (firstn n evs) initial_state))
      (seq 1 (List.length evs)).

(** How many lines of the log carry the message [msg]. *)
Definition count_log (msg : string) (s : state) : nat :=
  count_occ string_dec (log s) msg.

(** The readings the control loop takes along a run, oldest first. *)
Fixpoint readings_of (evs : list event) : list dht_reading :=
  match evs with
  | [] => []
  | ControlCycle rd :: rest => rd :: readings_of rest
  | _ :: rest => readings_of rest
  end.

(** The Fahrenheit samples of the readings whose status is 0. *)
Definition successful_samples (rds : list dht_reading) : list Q :=
  map (fun rd => fahrenheit (temp_c rd))
      (filter (fun rd => chk rd =? 0) rds).

(** The three strings the code ever assigns to [hvac_state]. *)
Definition valid_mode (m : string) : Prop :=
  m = "OFF" \/ m = "HEAT" \/ m = "AC".

(** An output is lit only in the mode that drives it. *)
Definition outputs_follow_mode (s : state) : Prop :=
  (red_led s = true -> hvac_state s = "HEAT") /\
  (blue_led s = true -> hvac_state s = "AC").

(** Polls of the motion monitor that all see motion, at the given times. *)
Definition motion_polls (times : list Q) : list event :=
  map (MotionPoll true) times.

(** The number of lines [on_msg] in the log exceeds the number of lines
    [off_msg] by one when [flag] is set and equals it otherwise. *)
Definition log_balanced (on_msg off_msg : string) (flag : bool) (s : state) : Prop :=
  count_log on_msg s = (count_log off_msg s + (if flag then 1 else 0))%nat.

(** Neither a door press nor a blink tick. *)
Definition leaves_door_and_blink_alone (e : event) : bool :=
  match e with
  | DoorPress | AlertTick => false
  | _ => true
  end.

(** * Properties *)

(** Unfolds the monadic plumbing so that a computation applied to a state
    reduces to the state it yields. *)
Ltac monad_unfold :=
  unfold exec, eval, sleep, log_event, lcd_write, lcd_clear, note_read,
    pir_motion_detected, time_time,
    led_on, led_off, led_toggle, led_set, skip, bind, gets, modify, ret in *.

#[local] Arguments String.eqb : simpl never.
#[local] Arguments String.append : simpl never.
#[local] Arguments str_of_Z : simpl never.
#[local] Arguments Qgtb : simpl never.
#[local] Arguments fl : simpl never.
#[local] Arguments fadd : simpl never.
#[local] Arguments fmul : simpl never.
#[local] Arguments fdiv : simpl never.
#[local] Arguments fahrenheit : simpl never.
#[local] Arguments py_sum : simpl never.

Ltac run_code := monad_unfold; cbn in *.

(** Splits on the test of the outermost conditional of the goal. *)
Ltac case_if :=
  match goal with
  | |- context [if ?b then _ else _] => destruct b eqn:?; cbn
  end.

Lemma exec_bind {A B} (m : M A) (k : A -> M B) s :
  exec (bind m k) s = exec (k (eval m s)) (exec m s).
Proof. unfold exec, eval, bind. destruct (m s); reflexivity. Qed.

(** ** What each step does to the state *)

Lemma increase_desired_temp_exec s :
  exec increase_desired_temp s =
  if desired_temp s <? 99 then set_desired_temp (desired_temp s + 1) s else s.
Proof. unfold increase_desired_temp. run_code. case_if; reflexivity. Qed.

Lemma decrease_desired_temp_exec s :
  exec decrease_desired_temp s =
  if desired_temp s >? 65 then set_desired_temp (desired_temp s - 1) s else s.
Proof. unfold decrease_desired_temp. run_code. case_if; reflexivity. Qed.

Lemma toggle_door_state_exec s :
  exec toggle_door_state s =
  if door_open s then
    set_lcd (lcd s ++ [LcdClear; LcdWrite 0 0 "DOOR: CLOSED";
                       LcdWrite 0 1 ("HVAC: " ++ hvac_state s)%string; LcdClear])
      (set_log (log s ++ ["DOOR CLOSED"]) (set_door_open false s))
  else
    set_lcd (lcd s ++ [LcdClear; LcdWrite 0 0 "DOOR: OPEN";
                       LcdWrite 0 1 ("HVAC: " ++ hvac_state s)%string; LcdClear])
      (set_log (log s ++ ["DOOR OPEN"; "HVAC OFF"])
         (set_red_led false (set_blue_led false (set_door_open true s)))).
Proof.
  unfold toggle_door_state. destruct s as [w sp al d lm fa h r b g l lg rs].
  run_code. destruct d; cbn; unfold set_lcd, set_log; cbn;
    repeat rewrite <- app_assoc; reflexivity.
Qed.

Lemma motion_monitor_iteration_exec motion now s :
  exec (motion_monitor_iteration motion now) s =
  if fire_alarm_active s then s
  else if motion then
    set_last_motion_time now
      (set_reads (reads s ++ [ReadPIR; ReadClock])
         (if ambient_light_on s then s
          else set_log (log s ++ ["LIGHTS ON"])
                 (set_ambient_light_on true (set_green_led true s))))
  else if ambient_light_on s then
    if Qgtb (now - last_motion_time s) 10 then
      set_log (log s ++ ["LIGHTS OFF"])
        (set_ambient_light_on false
           (set_green_led false (set_reads (reads s ++ [ReadPIR; ReadClock]) s)))
    else set_reads (reads s ++ [ReadPIR; ReadClock]) s
  else set_reads (reads s ++ [ReadPIR]) s.
Proof.
  unfold motion_monitor_iteration. destruct s as [w sp al d lm fa h r b g l lg rs].
  run_code. destruct fa; cbn; [reflexivity|].
  destruct motion; cbn.
  - destruct al; cbn; unfold set_last_motion_time, set_reads; cbn;
      repeat rewrite <- app_assoc; reflexivity.
  - destruct al; cbn; [|reflexivity].
    destruct (Qgtb (now - lm) 10); cbn; unfold set_log, set_reads; cbn;
      repeat rewrite <- app_assoc; reflexivity.
Qed.

Lemma fire_alarm_loop_iteration_exec s :
  exec fire_alarm_loop_iteration s =
  if fire_alarm_active s then
    set_lcd (lcd s ++ [LcdClear; LcdWrite 0 0 "!!! FIRE ALERT !!!";
                       LcdWrite 0 1 "DOOR: OPEN - EVAC"])
      (set_blue_led (negb (blue_led s))
         (set_red_led (negb (red_led s)) (set_green_led (negb (green_led s)) s)))
  else s.
Proof.
  unfold fire_alarm_loop_iteration. destruct s as [w sp al d lm fa h r b g l lg rs].
  run_code. destruct fa; cbn; unfold set_lcd; cbn;
    repeat rewrite <- app_assoc; reflexivity.
Qed.

Lemma get_average_temperature_exec rd s :
  exec (get_average_temperature rd) s =
  set_reads (reads s ++ [ReadDHT])
    (if chk rd =? 0 then
       set_temperature_readings
         (deque_append (fahrenheit (temp_c rd)) (temperature_readings s)) s
     else s).
Proof.
  unfold get_average_temperature. destruct s as [w sp al d lm fa h r b g l lg rs].
  run_code. destruct (chk rd =? 0); cbn; [|reflexivity].
  case_if; reflexivity.
Qed.

Lemma get_average_temperature_eval rd s :
  eval (get_average_temperature rd) s =
  if chk rd =? 0 then
    window_average (deque_append (fahrenheit (temp_c rd)) (temperature_readings s))
  else None.
Proof.
  unfold get_average_temperature, window_average.
  destruct s as [w sp al d lm fa h r b g l lg rs].
  run_code. destruct (chk rd =? 0); cbn; [|reflexivity].
  case_if; reflexivity.
Qed.

Lemma alarm_check_exec wi s :
  exec (alarm_check wi) s =
  if wi >? 90 then
    if fire_alarm_active s then s
    else set_log (log s ++ ["FIRE ALARM ON"; "HVAC OFF"])
           (set_blue_led false (set_red_led false
              (set_door_open true (set_fire_alarm_active true s))))
  else
    if fire_alarm_active s then
      set_lcd (lcd s ++ [LcdClear; LcdWrite 0 0 "Fire Over"; LcdWrite 0 1 "Resuming..."])
        (set_log (log s ++ ["FIRE ALARM OFF"])
           (set_green_led false (set_fire_alarm_active false s)))
    else s.
Proof.
  unfold alarm_check. destruct s as [w sp al d lm fa h r b g l lg rs].
  destruct (wi >? 90) eqn:Hwi; run_code.
  - destruct fa; cbn; [reflexivity|].
    unfold set_log; cbn. rewrite <- app_assoc. reflexivity.
  - assert (Hle : (wi <=? 90) = true).
    { apply Z.leb_le. rewrite Z.gtb_ltb in Hwi. apply Z.ltb_ge in Hwi. exact Hwi. }
    rewrite Hle. destruct fa; cbn; [|reflexivity].
    unfold set_lcd; cbn. repeat rewrite <- app_assoc. reflexivity.
Qed.

Lemma hvac_check_exec wi avg s :
  exec (hvac_check wi avg) s =
  if fire_alarm_active s then s
  else
    let h := hvac_target wi s in
    let s1 :=
      set_blue_led (h =? "AC")%string
        (set_red_led (h =? "HEAT")%string
           (set_hvac_state h (set_lcd (lcd s ++ status_lines wi avg s) s))) in
    if (h =? hvac_state s)%string then s1
    else set_log (log s ++ [("HVAC " ++ h)%string]) s1.
Proof.
  unfold hvac_check, hvac_target, status_lines.
  destruct s as [w sp al d lm fa h r b g l lg rs].
  run_code. destruct fa; cbn; [reflexivity|].
  destruct d; cbn; [|destruct (wi <? sp - 3); cbn; [|destruct (wi >? sp + 3); cbn]];
    match goal with
    | |- context [(?a =? h)%string] => destruct (a =? h)%string
    end; cbn; unfold set_log; cbn; repeat rewrite <- app_assoc; reflexivity.
Qed.

Lemma monitor_iteration_exec h rd s :
  exec (monitor_iteration h rd) s =
  let s0 := exec (get_average_temperature rd) s in
  match eval (get_average_temperature rd) s with
  | Some avg_temp =>
      let wi := weather_index avg_temp h in
      exec (hvac_check wi avg_temp) (exec (alarm_check wi) s0)
  | None => s0
  end.
Proof.
  unfold monitor_iteration. rewrite !exec_bind.
  destruct (eval (get_average_temperature rd) s); [rewrite exec_bind|]; reflexivity.
Qed.

(** Settles a goal about one field of the state a step yields, once the
    step has been rewritten to its whole-state equation. *)
Ltac by_cases :=
  cbn;
  repeat match goal with
         | |- context [if ?b then _ else _] => destruct b; cbn
         end;
  try reflexivity; try lia.

(** ** Setpoint *)

Lemma step_desired_temp h e s :
  desired_temp (exec (step h e) s) =
  match e with
  | BluePress => if desired_temp s <? 99 then desired_temp s + 1 else desired_temp s
  | RedPress => if desired_temp s >? 65 then desired_temp s - 1 else desired_temp s
  | _ => desired_temp s
  end.
Proof.
  destruct e; cbn [step].
  - rewrite monitor_iteration_exec, get_average_temperature_exec. cbn zeta.
    destruct (eval _ s); [rewrite hvac_check_exec, alarm_check_exec|]; by_cases.
  - rewrite motion_monitor_iteration_exec. by_cases.
  - rewrite fire_alarm_loop_iteration_exec. by_cases.
  - rewrite toggle_door_state_exec. by_cases.
  - rewrite increase_desired_temp_exec. by_cases.
  - rewrite decrease_desired_temp_exec. by_cases.
Qed.

Lemma run_desired_temp_bounds h evs : forall s,
  65 <= desired_temp s <= 99 ->
  65 <= desired_temp (run h evs s) <= 99.
Proof.
  induction evs as [|e evs IH]; intros s Hb; cbn [run]; [exact Hb|].
  apply IH. rewrite step_desired_temp.
  destruct e; try exact Hb.
  - destruct (Z.ltb_spec (desired_temp s) 99); lia.
  - rewrite Z.gtb_ltb. destruct (Z.ltb_spec 65 (desired_temp s)); lia.
Qed.

(** C8.  Whatever the threads and the buttons do after start-up, the
    setpoint stays in 65..99; pressing blue at 99 leaves 99 and pressing
    red at 65 leaves 65; below 99 a blue press adds exactly 1 and above 65
    a red press subtracts exactly 1. *)
Theorem setpoint_saturates (h : Q) (evs : list event) :
  let s := run h evs initial_state in
  65 <= desired_temp s <= 99 /\
  (desired_temp s = 99 -> desired_temp (exec increase_desired_temp s) = 99) /\
  (desired_temp s = 65 -> desired_temp (exec decrease_desired_temp s) = 65) /\
  (desired_temp s < 99 ->
     desired_temp (exec increase_desired_temp s) = desired_temp s + 1) /\
  (desired_temp s > 65 ->
     desired_temp (exec decrease_desired_temp s) = desired_temp s - 1).
Proof.
  intros s.
  assert (Hb : 65 <= desired_temp s <= 99).
  { apply run_desired_temp_bounds. cbn. lia. }
  rewrite increase_desired_temp_exec, decrease_desired_temp_exec, Z.gtb_ltb.
  repeat split; try lia; intros H;
    destruct (Z.ltb_spec (desired_temp s) 99);
    destruct (Z.ltb_spec 65 (desired_temp s)); cbn; lia.
Qed.

Lemma setpoint_saturates_witness :
  let s := run 55 (repeat BluePress 30) initial_state in
  desired_temp s = 99 /\
  desired_temp (exec increase_desired_temp s) = 99 /\
  desired_temp (exec decrease_desired_temp s) = 98.
Proof.
  intros s.
  destruct (setpoint_saturates 55 (repeat BluePress 30)) as (_ & Hmax & _ & _ & Hdec).
  fold s in Hmax, Hdec.
  assert (Hs : desired_temp s = 99) by reflexivity.
  split; [exact Hs|]. split; [apply Hmax, Hs|].
  rewrite Hdec; rewrite Hs; reflexivity.
Defined.

(** ** Door toggle *)

(** C10.  A door-button press never writes [hvac_state]: it flips
    [door_open] and leaves the setpoint, the alarm flag, the light flag,
    the motion time, the window and the light output alone.  On opening it
    switches both the heat and the cool output off and logs DOOR OPEN then
    HVAC OFF; on closing it logs DOOR CLOSED and leaves the outputs.  The
    stored mode is brought to OFF only by the next HVAC evaluation. *)
Theorem toggle_door_keeps_hvac_state (s : state) :
  let s' := exec toggle_door_state s in
  hvac_state s' = hvac_state s /\
  door_open s' = negb (door_open s) /\
  desired_temp s' = desired_temp s /\
  fire_alarm_active s' = fire_alarm_active s /\
  ambient_light_on s' = ambient_light_on s /\
  last_motion_time s' = last_motion_time s /\
  temperature_readings s' = temperature_readings s /\
  green_led s' = green_led s /\
  (door_open s = false ->
     red_led s' = false /\ blue_led s' = false /\
     log s' = log s ++ ["DOOR OPEN"; "HVAC OFF"] /\
     (fire_alarm_active s = false ->
      forall wi avg, hvac_state (exec (hvac_check wi avg) s') = "OFF")) /\
  (door_open s = true ->
     red_led s' = red_led s /\ blue_led s' = blue_led s /\
     log s' = log s ++ ["DOOR CLOSED"]).
Proof.
  intros s'. subst s'. rewrite toggle_door_state_exec.
  destruct s as [w sp al d lm fa h r b g l lg rs]. destruct d; cbn;
    repeat split; try discriminate; try reflexivity.
  intros Hfa wi avg. rewrite hvac_check_exec. cbn in *. subst fa. cbn.
  unfold hvac_target. cbn. destruct (_ =? h)%string; reflexivity.
Qed.

Lemma toggle_door_keeps_hvac_state_witness :
  hvac_state heating_state = "HEAT" /\ red_led heating_state = true /\
  hvac_state (exec toggle_door_state heating_state) = "HEAT" /\
  red_led (exec toggle_door_state heating_state) = false /\
  hvac_state (exec (hvac_check 53 50) (exec toggle_door_state heating_state)) = "OFF".
Proof.
  destruct (toggle_door_keeps_hvac_state heating_state)
    as (Hh & _ & _ & _ & _ & _ & _ & _ & Hopen & _).
  destruct (Hopen eq_refl) as (Hr & _ & _ & Hnext).
  split; [reflexivity|]. split; [reflexivity|].
  split; [rewrite Hh; reflexivity|]. split; [exact Hr|].
  apply Hnext. reflexivity.
Defined.

(** ** HVAC evaluation *)

(** C2.  With the alarm inactive, one HVAC evaluation sets the mode by
    priority: door open gives OFF; else an index below setpoint - 3 gives
    HEAT; else an index above setpoint + 3 gives the cooling mode (the
    string AC in the code); else OFF.  The heat output is on exactly in
    HEAT and the cool output exactly in AC.  With setpoint 72 and the door
    closed, 68 gives HEAT, 76 gives AC, 72 and 69 give OFF; with the door
    open 68 gives OFF. *)
Theorem hvac_priority_order (wi avg : Z) (s : state) :
  fire_alarm_active s = false ->
  let s' := exec (hvac_check wi avg) s in
  hvac_state s' =
    (if door_open s then "OFF"
     else if wi <? desired_temp s - 3 then "HEAT"
     else if wi >? desired_temp s + 3 then "AC"
     else "OFF") /\
  red_led s' = (hvac_state s' =? "HEAT")%string /\
  blue_led s' = (hvac_state s' =? "AC")%string /\
  (desired_temp s = 72 ->
     (door_open s = false ->
        (wi = 68 -> hvac_state s' = "HEAT") /\
        (wi = 76 -> hvac_state s' = "AC") /\
        (wi = 72 -> hvac_state s' = "OFF") /\
        (wi = 69 -> hvac_state s' = "OFF")) /\
     (door_open s = true -> wi = 68 -> hvac_state s' = "OFF")).
Proof.
  intros Hfa s'.
  assert (Hmode : hvac_state s' = hvac_target wi s /\
                  red_led s' = (hvac_target wi s =? "HEAT")%string /\
                  blue_led s' = (hvac_target wi s =? "AC")%string).
  { subst s'. rewrite hvac_check_exec, Hfa. cbv zeta.
    destruct (_ =? hvac_state s)%string; cbn; repeat split. }
  destruct Hmode as (Hm & Hr & Hb). rewrite Hm.
  split; [reflexivity|]. split; [exact Hr|]. split; [exact Hb|].
  unfold hvac_target. intros Hsp. rewrite Hsp.
  split; intros Hd; rewrite Hd.
  - repeat split; intros ->; reflexivity.
  - reflexivity.
Qed.

Lemma hvac_priority_order_witness :
  hvac_state (exec (hvac_check 68 66) initial_state) = "HEAT" /\
  red_led (exec (hvac_check 68 66) initial_state) = true /\
  blue_led (exec (hvac_check 68 66) initial_state) = false.
Proof.
  destruct (hvac_priority_order 68 66 initial_state eq_refl)
    as (_ & Hr & Hb & Hex).
  destruct (Hex eq_refl) as (Hclosed & _).
  destruct (Hclosed eq_refl) as (Hheat & _).
  pose proof (Hheat eq_refl) as Hm.
  split; [exact Hm|].
  split; [rewrite Hr, Hm; reflexivity | rewrite Hb, Hm; reflexivity].
Defined.

(** ** Failed sensor read *)

(** C6.  When [readDHT11()] reports a failure (any status other than 0)
    the read step returns [None], appends nothing to the window, leaves
    the window and the log as they were, and the whole control cycle
    changes nothing: the only trace is the read itself.  The step is a
    total function, so nothing is raised. *)
Theorem failed_read_drops_sample (h : Q) (rd : dht_reading) (s : state) :
  chk rd <> 0 ->
  eval (get_average_temperature rd) s = None /\
  temperature_readings (exec (get_average_temperature rd) s) = temperature_readings s /\
  log (exec (get_average_temperature rd) s) = log s /\
  exec (get_average_temperature rd) s = set_reads (reads s ++ [ReadDHT]) s /\
  exec (monitor_iteration h rd) s = set_reads (reads s ++ [ReadDHT]) s.
Proof.
  intros Hchk. apply Z.eqb_neq in Hchk.
  rewrite monitor_iteration_exec, get_average_temperature_eval,
    get_average_temperature_exec, Hchk.
  repeat split.
Qed.

Lemma failed_read_drops_sample_witness :
  eval (get_average_temperature (mkReading (-1) 25)) heating_state = None /\
  temperature_readings (exec (get_average_temperature (mkReading (-1) 25)) heating_state)
  = temperature_readings heating_state.
Proof.
  assert (Hchk : chk (mkReading (-1) 25) <> 0) by (cbn; lia).
  destruct (failed_read_drops_sample 55 (mkReading (-1) 25) heating_state Hchk)
    as (Hnone & Hwin & _).
  split; [exact Hnone | exact Hwin].
Defined.

(** ** Order of the two checks inside one control cycle *)

(** C9.  In a cycle that has an index, the alarm block runs first and the
    HVAC block runs on the state it leaves.  If the alarm flag is set at
    that point the HVAC block does nothing at all: the cycle ends in the
    state the alarm block left.  So with an index above 90 the cycle
    leaves [hvac_state] and the display untouched and logs nothing about
    the HVAC mode beyond the two alarm-entry lines, also when the alarm
    was raised in this very cycle; and with an index of at most 90 the
    alarm block clears the flag first and the HVAC block then evaluates
    the mode in the same cycle. *)
Theorem alarm_check_before_hvac_check (h : Q) (rd : dht_reading) (s : state) (avg : Z) :
  eval (get_average_temperature rd) s = Some avg ->
  let wi := weather_index avg h in
  let s1 := exec (alarm_check wi) (exec (get_average_temperature rd) s) in
  let s' := exec (monitor_iteration h rd) s in
  s' = exec (hvac_check wi avg) s1 /\
  (fire_alarm_active s1 = true -> s' = s1) /\
  (wi > 90 ->
     fire_alarm_active s' = true /\
     hvac_state s' = hvac_state s /\
     lcd s' = lcd s /\
     log s' = log s ++ (if fire_alarm_active s then []
                        else ["FIRE ALARM ON"; "HVAC OFF"]) /\
     (fire_alarm_active s = false -> red_led s' = false /\ blue_led s' = false) /\
     (fire_alarm_active s = true ->
        red_led s' = red_led s /\ blue_led s' = blue_led s)) /\
  (wi <= 90 ->
     fire_alarm_active s' = false /\
     hvac_state s' = hvac_target wi s).
Proof.
  intros Havg wi s1 s'.
  assert (Hs' : s' = exec (hvac_check wi avg) s1).
  { subst s' s1 wi. rewrite monitor_iteration_exec, Havg. reflexivity. }
  split; [exact Hs'|]. split.
  { intros H1. rewrite Hs', hvac_check_exec, H1. reflexivity. }
  rewrite Hs'. subst s1. clear Hs' s'.
  rewrite hvac_check_exec, alarm_check_exec, get_average_temperature_exec.
  rewrite Z.gtb_ltb.
  destruct s as [w sp al d lm fa hs r b g l lg rs]. clear Havg.
  split; intros Hwi.
  - assert (Hlt : (90 <? wi) = true) by (apply Z.ltb_lt; lia).
    rewrite Hlt. destruct (chk rd =? 0), fa; cbn; rewrite ?app_nil_r;
      repeat split; try discriminate; reflexivity.
  - assert (Hlt : (90 <? wi) = false) by (apply Z.ltb_ge; lia).
    rewrite Hlt. unfold hvac_target.
    destruct (chk rd =? 0), fa; cbn; destruct (_ =? hs)%string; cbn; repeat split.
Qed.

Lemma alarm_check_before_hvac_check_witness :
  let s' := exec (monitor_iteration 55 hot_reading) cooling_state in
  fire_alarm_active cooling_state = false /\
  fire_alarm_active s' = true /\ hvac_state s' = "AC" /\
  log s' = log cooling_state ++ ["FIRE ALARM ON"; "HVAC OFF"].
Proof.
  assert (Havg : eval (get_average_temperature hot_reading) cooling_state = Some 104)
    by reflexivity.
  destruct (alarm_check_before_hvac_check 55 hot_reading cooling_state 104 Havg)
    as (_ & _ & Hhigh & _).
  assert (Hwi : weather_index 104 55 > 90) by reflexivity.
  destruct (Hhigh Hwi) as (Hfa & Hh & _ & Hlog & _).
  split; [reflexivity|]. split; [exact Hfa|].
  split; [rewrite Hh; reflexivity | exact Hlog].
Defined.

(** ** Fire-alarm supervisor *)




(** ** Alarm invariant under interleaving *)







(** The blink task is outside that statement for a reason: one tick
    during an alarm lights both outputs. *)
Remark alert_tick_lights_outputs :
  let s := run 55 (repeat (ControlCycle hot_reading) 3 ++ [AlertTick]) initial_state in
  fire_alarm_active s = true /\ red_led s = true /\ blue_led s = true.
Proof. repeat split. Qed.

(** ** Humidity fetch *)

(** C7, as stated, fails: the value of a successful reply is returned
    unchecked, so a reply carrying 150 yields 150. *)
Lemma humidity_in_range_counterexample :
  get_humidity reply_150 = Ok (JInt 150) /\
  ~ humidity_in_range (get_humidity reply_150).
Proof.
  split; [reflexivity|].
  intros (n & Heq & Hrange). cbn in Heq. injection Heq as <-. lia.
Qed.

(** C7, amended.  [get_humidity] never raises.  It returns 55, which
    lies in 0..100, whenever the request raises, the status is not 200,
    the body does not decode, or the decoded body has no
    main/humidity entry; on a 200 reply that has one it returns that
    value as it is, whatever it is. *)
Theorem get_humidity_fallback (net : result response) :
  (exists v, get_humidity net = Ok v) /\
  (forall e, net = Raise e -> get_humidity net = Ok (JInt 55)) /\
  (forall r, net = Ok r -> status_code r <> 200 ->
     get_humidity net = Ok (JInt 55)) /\
  (forall r e, net = Ok r -> status_code r = 200 -> response_json r = Raise e ->
     get_humidity net = Ok (JInt 55)) /\
  (forall r body, net = Ok r -> status_code r = 200 -> response_json r = Ok body ->
     get_humidity net =
     match py_getitem body "main" with
     | Ok main =>
         match py_getitem main "humidity" with
         | Ok v => Ok v
         | Raise _ => Ok (JInt 55)
         end
     | Raise _ => Ok (JInt 55)
     end) /\
  humidity_in_range (Ok (JInt 55)).
Proof.
  unfold get_humidity, get_humidity_try, rbind.
  split; [|split; [|split; [|split; [|split]]]].
  - destruct net as [r|e]; [|eauto].
    destruct (status_code r =? 200); [|eauto].
    destruct (response_json r) as [body|e]; [|eauto].
    destruct (py_getitem body "main") as [main|e]; [|eauto].
    destruct (py_getitem main "humidity") as [v|e]; eauto.
  - intros e ->. reflexivity.
  - intros r -> Hst. apply Z.eqb_neq in Hst. rewrite Hst. reflexivity.
  - intros r e -> Hst Hjs. rewrite Hst, Hjs. reflexivity.
  - intros r body -> Hst Hjs. rewrite Hst, Hjs. cbn.
    destruct (py_getitem body "main") as [main|e]; [|reflexivity].
    destruct (py_getitem main "humidity") as [v|e]; reflexivity.
  - exists 55. split; [reflexivity | lia].
Qed.

Lemma get_humidity_fallback_witness :
  get_humidity (Ok (mkResponse 503 (Raise JSONDecodeError))) = Ok (JInt 55) /\
  get_humidity (Ok (mkResponse 200 (Raise JSONDecodeError))) = Ok (JInt 55) /\
  get_humidity (Raise RequestException) = Ok (JInt 55) /\
  get_humidity reply_150 = Ok (JInt 150).
Proof.
  split; [|split; [|split]].
  - destruct (get_humidity_fallback (Ok (mkResponse 503 (Raise JSONDecodeError))))
      as (_ & _ & Hst & _).
    apply (Hst _ eq_refl). cbn. lia.
  - destruct (get_humidity_fallback (Ok (mkResponse 200 (Raise JSONDecodeError))))
      as (_ & _ & _ & Hjs & _).
    apply (Hjs _ JSONDecodeError eq_refl); reflexivity.
  - destruct (get_humidity_fallback (Raise RequestException)) as (_ & Hr & _).
    apply (Hr _ eq_refl).
  - destruct (get_humidity_fallback reply_150) as (_ & _ & _ & _ & Hok & _).
    apply (Hok _ _ eq_refl eq_refl eq_refl).
Defined.

(** ** Sensor filter *)

(** [py_round] returns an integer within one half of its argument. *)
Lemma py_round_nearest (x : Q) :
  (inject_Z (py_round x) - (1 # 2) <= x <= inject_Z (py_round x) + (1 # 2))%Q.
Proof.
  unfold py_round.
  pose proof (Qfloor_le x) as Hlo. pose proof (Qlt_floor x) as Hhi.
  rewrite inject_Z_plus in Hhi. change (inject_Z 1) with 1%Q in Hhi.
  destruct (Qcompare_spec (x - inject_Z (Qfloor x)) (1 # 2)) as [He|Hl|Hg].
  - destruct (Z.even (Qfloor x)); rewrite ?inject_Z_plus;
      change (inject_Z 1) with 1%Q; lra.
  - lra.
  - rewrite inject_Z_plus. change (inject_Z 1) with 1%Q. lra.
Qed.

Lemma tl_skipn {A} (k : nat) (l : list A) : tl (skipn k l) = skipn (S k) l.
Proof.
  revert l. induction k as [|k IH]; intros [|a l]; try reflexivity.
  apply (IH l).
Qed.

Lemma deque_append_last3 x (l : list Q) :
  deque_append x (last3 l) = last3 (l ++ [x]).
Proof.
  unfold deque_append, last3, deque_maxlen.
  rewrite length_skipn, length_app. cbn [List.length].
  destruct (Nat.ltb_spec (List.length l - (List.length l - 3)) 3) as [Hlt|Hge].
  - replace (List.length l - 3)%nat with 0%nat by lia.
    replace (List.length l + 1 - 3)%nat with 0%nat by lia. reflexivity.
  - rewrite tl_skipn, skipn_app.
    replace (S (List.length l - 3)) with (List.length l + 1 - 3)%nat by lia.
    replace (List.length l + 1 - 3 - List.length l)%nat with 0%nat by lia.
    reflexivity.
Qed.

Lemma last3_length {A} (l : list A) : (List.length (last3 l) <= 3)%nat.
Proof. unfold last3. rewrite length_skipn. lia. Qed.






(** The double nearest to one tenth, and two sums whose exact value is a
    tie but whose float value is not: readings of 0.5, 1.0 and 1.0 degrees
    Celsius average to 33, and 23.9, 24.1 and 24.5 to 75. *)
Example binary64_rounding_shows :
  fl (1 # 10) = (3602879701896397 # 36028797018963968)%Q /\
  window_average (map fahrenheit [1 # 2; 1; 1]%Q) = Some 33 /\
  window_average (map fahrenheit [239 # 10; 241 # 10; 245 # 10]%Q) = Some 75.
Proof. vm_compute. repeat split. Qed.

(** ** Motion-driven light *)

Lemma Qgtb_false x y : (x <= y)%Q -> Qgtb x y = false.
Proof.
  intros H. unfold Qgtb. apply negb_false_iff, Qle_bool_iff, H.
Qed.

Lemma Qgtb_true x y : (y < x)%Q -> Qgtb x y = true.
Proof.
  intros H. unfold Qgtb. apply negb_true_iff.
  destruct (Qle_bool x y) eqn:Hle; [|reflexivity].
  apply Qle_bool_iff in Hle. exfalso. exact (Qlt_not_le _ _ H Hle).
Qed.

(** C5.  One poll of the motion monitor, from any state: a light that is
    on stays on, with no log line and the output untouched, as long as at
    most 10 s have passed since [last_motion_time]; with no alarm, no
    motion, the light on and more than 10 s passed, the poll switches the
    light off and appends exactly the one line LIGHTS OFF; a later poll
    without motion finds the light off and logs nothing; and while the
    alarm is active the poll reads neither the PIR nor the clock and
    changes nothing. *)
Theorem motion_light_timeout (motion : bool) (now : Q) (s : state) :
  let s' := exec (motion_monitor_iteration motion now) s in
  (ambient_light_on s = true -> (now - last_motion_time s <= 10)%Q ->
     ambient_light_on s' = true /\ green_led s' = green_led s /\
     log s' = log s) /\
  (fire_alarm_active s = false -> motion = false ->
   ambient_light_on s = true -> (10 < now - last_motion_time s)%Q ->
     ambient_light_on s' = false /\ green_led s' = false /\
     log s' = log s ++ ["LIGHTS OFF"] /\
     forall later,
       log (exec (motion_monitor_iteration false later) s') = log s') /\
  (ambient_light_on s' = false -> ambient_light_on s = true ->
     fire_alarm_active s = false /\ motion = false /\
     (10 < now - last_motion_time s)%Q) /\
  (fire_alarm_active s = true -> s' = s).
Proof.
  intros s'. subst s'. rewrite motion_monitor_iteration_exec.
  destruct s as [w sp al d lm fa hs r b g l lg rs]. cbn.
  split; [|split; [|split]].
  - intros -> Hle. rewrite (Qgtb_false _ _ Hle).
    destruct fa, motion; cbn; repeat split.
  - intros -> -> -> Hlt. rewrite (Qgtb_true _ _ Hlt). cbn.
    split; [reflexivity|]. split; [reflexivity|]. split; [reflexivity|].
    intros later. reflexivity.
  - intros Hoff ->. destruct fa; [discriminate Hoff|].
    destruct motion; [discriminate Hoff|].
    destruct (Qgtb (now - lm) 10) eqn:Hgt; [|discriminate Hoff].
    repeat split. unfold Qgtb in Hgt. apply negb_true_iff in Hgt.
    apply Qnot_le_lt. intros Hle. apply Qle_bool_iff in Hle. congruence.
  - intros ->. reflexivity.
Qed.

Lemma motion_light_timeout_witness :
  let s := run 55 presence_then_9s_absence initial_state in
  let s' := exec (motion_monitor_iteration false (152 # 10)) s in
  ambient_light_on s = true /\
  ambient_light_on s' = false /\ green_led s' = false /\
  log s' = log s ++ ["LIGHTS OFF"] /\
  ambient_light_on (exec (motion_monitor_iteration false 14) s) = true.
Proof.
  intros s s'.
  destruct (motion_light_timeout false (152 # 10) s) as (_ & Hoff & _).
  destruct (motion_light_timeout false 14 s) as (Hon & _).
  assert (Hlate : (10 < (152 # 10) - last_motion_time s)%Q) by reflexivity.
  assert (Hearly : (14 - last_motion_time s <= 10)%Q) by (vm_compute; discriminate).
  destruct (Hoff eq_refl eq_refl eq_refl Hlate) as (H1 & H2 & H3 & _).
  destruct (Hon eq_refl Hearly) as (H4 & _).
  split; [reflexivity|]. repeat split; assumption.
Defined.

(** The scenario of the specification: motion for 5 s, then 9 s without
    motion, polled every 0.2 s; the light is on after every poll and no
    LIGHTS OFF line is written.  Going on without motion to 16 s, the
    light is off and the log holds exactly one LIGHTS OFF line. *)
Example presence_then_absence_scenario :
  forallb (fun b => b) (light_after_each_prefix presence_then_9s_absence) = true /\
  count_log "LIGHTS OFF" (run 55 presence_then_9s_absence initial_state) = 0%nat /\
  let s := run 55 (presence_then_9s_absence ++ polls false 71 10) initial_state in
  ambient_light_on s = false /\ count_log "LIGHTS OFF" s = 1%nat.
Proof. vm_compute. repeat split. Qed.

(** * Further properties of the code *)

(** ** The window along a whole run *)

Lemma step_window h e s :
  temperature_readings (exec (step h e) s) =
  match e with
  | ControlCycle rd =>
      if chk rd =? 0 then
        deque_append (fahrenheit (temp_c rd)) (temperature_readings s)
      else temperature_readings s
  | _ => temperature_readings s
  end.
Proof.
  destruct e; cbn [step].
  - rewrite monitor_iteration_exec, get_average_temperature_exec. cbn zeta.
    destruct (eval _ s); [rewrite hvac_check_exec, alarm_check_exec|]; by_cases.
  - rewrite motion_monitor_iteration_exec. by_cases.
  - rewrite fire_alarm_loop_iteration_exec. by_cases.
  - rewrite toggle_door_state_exec. by_cases.
  - rewrite increase_desired_temp_exec. by_cases.
  - rewrite decrease_desired_temp_exec. by_cases.
Qed.

Lemma run_window h evs : forall s l,
  temperature_readings s = last3 l ->
  temperature_readings (run h evs s) =
  last3 (l ++ successful_samples (readings_of evs)).
Proof.
  unfold successful_samples.
  induction evs as [|e evs IH]; intros s l Hw; cbn [run readings_of filter map].
  - rewrite app_nil_r. exact Hw.
  - assert (Hstep := step_window h e s).
    destruct e; cbn [readings_of];
      try (apply IH; rewrite Hstep; exact Hw).
    cbn [filter]. destruct (chk rd =? 0); cbn [map].
    + rewrite (IH _ (l ++ [fahrenheit (temp_c rd)])).
      * rewrite <- app_assoc. reflexivity.
      * rewrite Hstep, Hw. apply deque_append_last3.
    + apply IH. rewrite Hstep. exact Hw.
Qed.

(** X1.  Whatever the threads and buttons do after start-up, the window
    holds exactly the last three Fahrenheit samples of the control loop's
    successful reads, in order: failed reads leave no trace in it and no
    other step touches it.  So it never holds more than three entries. *)
Theorem window_is_last_three_successful_reads (h : Q) (evs : list event) :
  let w := temperature_readings (run h evs initial_state) in
  w = last3 (successful_samples (readings_of evs)) /\
  (List.length w <= 3)%nat.
Proof.
  intros w.
  assert (Hw : w = last3 (successful_samples (readings_of evs))).
  { subst w. apply (run_window h evs initial_state []). reflexivity. }
  split; [exact Hw|]. rewrite Hw. apply last3_length.
Qed.

(** ** The stored mode and the outputs *)

Lemma hvac_target_valid wi s : valid_mode (hvac_target wi s).
Proof.
  unfold hvac_target, valid_mode.
  destruct (door_open s); [auto|].
  destruct (wi <? _); [auto|]. destruct (wi >? _); auto.
Qed.

Lemma hvac_check_hvac_state wi avg s :
  hvac_state (exec (hvac_check wi avg) s) =
  if fire_alarm_active s then hvac_state s else hvac_target wi s.
Proof.
  rewrite hvac_check_exec. destruct (fire_alarm_active s); [reflexivity|].
  cbv zeta. destruct (_ =? hvac_state s)%string; reflexivity.
Qed.

Lemma alarm_check_frame wi s :
  hvac_state (exec (alarm_check wi) s) = hvac_state s /\
  desired_temp (exec (alarm_check wi) s) = desired_temp s /\
  ambient_light_on (exec (alarm_check wi) s) = ambient_light_on s /\
  last_motion_time (exec (alarm_check wi) s) = last_motion_time s /\
  temperature_readings (exec (alarm_check wi) s) = temperature_readings s.
Proof.
  rewrite alarm_check_exec.
  destruct (wi >? 90), (fire_alarm_active s); repeat split.
Qed.

Lemma step_hvac_state h e s :
  hvac_state (exec (step h e) s) = hvac_state s \/
  exists wi s0, hvac_state (exec (step h e) s) = hvac_target wi s0.
Proof.
  destruct e; cbn [step].
  - rewrite monitor_iteration_exec. cbv zeta.
    destruct (eval _ s) as [avg|].
    + rewrite hvac_check_hvac_state.
      destruct (fire_alarm_active _); [left|right; eauto].
      rewrite (proj1 (alarm_check_frame _ _)), get_average_temperature_exec.
      by_cases.
    + left. rewrite get_average_temperature_exec. by_cases.
  - left. rewrite motion_monitor_iteration_exec. by_cases.
  - left. rewrite fire_alarm_loop_iteration_exec. by_cases.
  - left. rewrite toggle_door_state_exec. by_cases.
  - left. rewrite increase_desired_temp_exec. by_cases.
  - left. rewrite decrease_desired_temp_exec. by_cases.
Qed.

(** X2.  In every state reached from start-up, by any steps of any of the
    three loops and any button presses, [hvac_state] is one of the strings
    OFF, HEAT and AC. *)
Theorem hvac_state_is_a_mode (h : Q) (evs : list event) :
  valid_mode (hvac_state (run h evs initial_state)).
Proof.
  assert (Hgen : forall s, valid_mode (hvac_state s) ->
                           valid_mode (hvac_state (run h evs s))).
  { induction evs as [|e evs IH]; intros s Hs; cbn [run]; [exact Hs|].
    apply IH. destruct (step_hvac_state h e s) as [Heq|(wi & s0 & Heq)];
      rewrite Heq; [exact Hs | apply hvac_target_valid]. }
  apply Hgen. left. reflexivity.
Qed.

Lemma hvac_check_outputs wi avg s :
  fire_alarm_active s = false ->
  outputs_follow_mode (exec (hvac_check wi avg) s).
Proof.
  intros Hfa. rewrite hvac_check_exec, Hfa. cbv zeta.
  unfold outputs_follow_mode.
  destruct (_ =? hvac_state s)%string; cbn;
    split; intros H; apply String.eqb_eq, H.
Qed.

Lemma step_outputs_follow_mode h e s :
  is_alert_tick e = false ->
  outputs_follow_mode s -> outputs_follow_mode (exec (step h e) s).
Proof.
  intros Htick Hs. destruct e; try discriminate Htick; cbn [step].
  - rewrite monitor_iteration_exec. cbv zeta.
    destruct (eval _ s) as [avg|].
    + set (wi := weather_index avg h).
      destruct (fire_alarm_active
                  (exec (alarm_check wi) (exec (get_average_temperature rd) s)))
        eqn:Hfa.
      * rewrite hvac_check_exec, Hfa.
        rewrite alarm_check_exec, get_average_temperature_exec in *.
        destruct s as [w sp al d lm fa hs r b g l lg rs].
        unfold outputs_follow_mode in *. cbn in *.
        destruct (chk rd =? 0), (wi >? 90), fa; cbn in *;
          try discriminate; try exact Hs; split; discriminate.
      * apply hvac_check_outputs, Hfa.
    + rewrite get_average_temperature_exec.
      destruct s as [w sp al d lm fa hs r b g l lg rs].
      unfold outputs_follow_mode in *. destruct (chk rd =? 0); exact Hs.
  - rewrite motion_monitor_iteration_exec.
    destruct s as [w sp al d lm fa hs r b g l lg rs].
    unfold outputs_follow_mode in *. cbn in *.
    destruct fa, motion, al; cbn; try destruct (Qgtb _ _); exact Hs.
  - rewrite toggle_door_state_exec.
    destruct s as [w sp al d lm fa hs r b g l lg rs].
    unfold outputs_follow_mode in *. cbn in *.
    destruct d; cbn; [exact Hs | split; discriminate].
  - rewrite increase_desired_temp_exec.
    destruct s as [w sp al d lm fa hs r b g l lg rs].
    unfold outputs_follow_mode in *. cbn in *. destruct (sp <? 99); exact Hs.
  - rewrite decrease_desired_temp_exec.
    destruct s as [w sp al d lm fa hs r b g l lg rs].
    unfold outputs_follow_mode in *. cbn in *. destruct (sp >? 65); exact Hs.
Qed.

(** X3.  As long as the blink task does not run, the heat output is lit
    only while [hvac_state] is HEAT and the cool output only while it is
    AC, in every state reached from start-up; in particular the two are
    never lit together. *)
Theorem outputs_lit_only_in_their_mode (h : Q) (evs : list event) :
  forallb (fun e => negb (is_alert_tick e)) evs = true ->
  let s := run h evs initial_state in
  (red_led s = true -> hvac_state s = "HEAT") /\
  (blue_led s = true -> hvac_state s = "AC") /\
  red_led s && blue_led s = false.
Proof.
  intros Hev s.
  assert (Hgen : forall evs s0,
             forallb (fun e => negb (is_alert_tick e)) evs = true ->
             outputs_follow_mode s0 -> outputs_follow_mode (run h evs s0)).
  { clear. induction evs as [|e evs IH]; intros s0 Hev Hs0; cbn [run]; [exact Hs0|].
    cbn [forallb] in Hev. apply andb_true_iff in Hev as [He Hev].
    apply negb_true_iff in He.
    apply IH; [exact Hev|]. apply step_outputs_follow_mode; assumption. }
  assert (Hs : outputs_follow_mode s).
  { apply Hgen; [exact Hev|]. split; discriminate. }
  destruct Hs as [Hr Hb]. split; [exact Hr|]. split; [exact Hb|].
  destruct (red_led s) eqn:Er, (blue_led s) eqn:Eb; try reflexivity.
  rewrite (Hr eq_refl) in Hb. discriminate (Hb eq_refl).
Qed.

Lemma outputs_lit_only_in_their_mode_witness :
  let evs := repeat (ControlCycle cold_reading) 3 ++ [BluePress; MotionPoll true 1] in
  let s := run 55 evs initial_state in
  red_led s = true /\ hvac_state s = "HEAT" /\ blue_led s = false.
Proof.
  intros evs s.
  destruct (outputs_lit_only_in_their_mode 55 evs eq_refl) as (Hr & _ & Hnot).
  fold s in Hr, Hnot.
  assert (Er : red_led s = true) by reflexivity.
  split; [exact Er|]. split; [exact (Hr Er)|].
  rewrite Er in Hnot. exact Hnot.
Defined.

(** ** HVAC logging *)

Lemma hvac_target_frame wi s s' :
  door_open s' = door_open s -> desired_temp s' = desired_temp s ->
  hvac_target wi s' = hvac_target wi s.
Proof. unfold hvac_target. intros -> ->. reflexivity. Qed.

(** X4.  With the alarm inactive, the HVAC block writes a log line exactly
    when the mode it settles on differs from the stored one, and the line
    names the new mode.  Evaluating it again right away with the same
    index logs nothing and leaves mode and outputs as they are, whatever
    average is displayed. *)
Theorem hvac_log_only_on_change (wi avg avg' : Z) (s : state) :
  fire_alarm_active s = false ->
  let s1 := exec (hvac_check wi avg) s in
  let s2 := exec (hvac_check wi avg') s1 in
  (hvac_state s1 = hvac_state s -> log s1 = log s) /\
  (hvac_state s1 <> hvac_state s ->
     log s1 = log s ++ [("HVAC " ++ hvac_state s1)%string]) /\
  log s2 = log s1 /\ hvac_state s2 = hvac_state s1 /\
  red_led s2 = red_led s1 /\ blue_led s2 = blue_led s1.
Proof.
  intros Hfa s1 s2.
  assert (H1 : s1 =
    let m := hvac_target wi s in
    let t := set_blue_led (m =? "AC")%string
               (set_red_led (m =? "HEAT")%string
                  (set_hvac_state m (set_lcd (lcd s ++ status_lines wi avg s) s))) in
    if (m =? hvac_state s)%string then t
    else set_log (log s ++ [("HVAC " ++ m)%string]) t).
  { subst s1. rewrite hvac_check_exec, Hfa. reflexivity. }
  assert (Hm1 : hvac_state s1 = hvac_target wi s).
  { subst s1. rewrite hvac_check_hvac_state, Hfa. reflexivity. }
  assert (Hfa1 : fire_alarm_active s1 = false).
  { rewrite H1. cbv zeta. destruct (_ =? hvac_state s)%string; exact Hfa. }
  assert (Ht1 : hvac_target wi s1 = hvac_target wi s).
  { apply hvac_target_frame; rewrite H1; cbv zeta;
      destruct (_ =? hvac_state s)%string; reflexivity. }
  split; [|split].
  - intros Heq. rewrite Hm1 in Heq. rewrite H1. cbv zeta.
    rewrite Heq, String.eqb_refl. reflexivity.
  - intros Hne. rewrite Hm1 in Hne |- *. rewrite H1. cbv zeta.
    apply String.eqb_neq in Hne. rewrite Hne. reflexivity.
  - subst s2. rewrite hvac_check_exec, Hfa1, Ht1. cbv zeta.
    rewrite Hm1, String.eqb_refl. cbn.
    rewrite H1. cbv zeta.
    destruct (_ =? hvac_state s)%string; repeat split.
Qed.

Lemma hvac_log_only_on_change_witness :
  let s1 := exec (hvac_check 53 50) initial_state in
  log s1 = log initial_state ++ ["HVAC HEAT"] /\
  log (exec (hvac_check 53 51) s1) = log s1.
Proof.
  intros s1.
  destruct (hvac_log_only_on_change 53 50 51 initial_state eq_refl)
    as (_ & Hchg & Hsame & _).
  fold s1 in Hchg, Hsame. split; [|exact Hsame].
  rewrite Hchg; [reflexivity | discriminate].
Defined.

(** ** Motion monitor: switching the light on *)

(** X5.  With no alarm, a poll that sees motion leaves the light flag and
    the light output on and sets [last_motion_time] to the time of the
    poll; it logs LIGHTS ON exactly when the flag was off before, and
    nothing when it was already on. *)
Theorem motion_switches_light_on (now : Q) (s : state) :
  fire_alarm_active s = false ->
  let s' := exec (motion_monitor_iteration true now) s in
  ambient_light_on s' = true /\
  last_motion_time s' = now /\
  (ambient_light_on s = false ->
     green_led s' = true /\ log s' = log s ++ ["LIGHTS ON"]) /\
  (ambient_light_on s = true ->
     green_led s' = green_led s /\ log s' = log s).
Proof.
  intros Hfa s'. subst s'. rewrite motion_monitor_iteration_exec, Hfa.
  destruct s as [w sp al d lm fa hs r b g l lg rs]. cbn.
  destruct al; cbn; repeat split; intros; try discriminate; reflexivity.
Qed.

Lemma motion_switches_light_on_witness :
  let s' := exec (motion_monitor_iteration true 7) initial_state in
  ambient_light_on s' = true /\ green_led s' = true /\
  log s' = log initial_state ++ ["LIGHTS ON"].
Proof.
  intros s'.
  destruct (motion_switches_light_on 7 initial_state eq_refl) as (Hon & _ & Hedge & _).
  destruct (Hedge eq_refl) as (Hg & Hl).
  split; [exact Hon|]. split; [exact Hg | exact Hl].
Defined.

(** X6.  Motion refreshes the timer: with no alarm, after a poll at time
    [t] that sees motion, a poll without motion at any time up to
    [t + 10] leaves the light on and logs nothing. *)
Theorem motion_restarts_timeout (t t' : Q) (s : state) :
  fire_alarm_active s = false ->
  (t' - t <= 10)%Q ->
  let s1 := exec (motion_monitor_iteration true t) s in
  let s2 := exec (motion_monitor_iteration false t') s1 in
  ambient_light_on s2 = true /\ green_led s2 = green_led s1 /\ log s2 = log s1.
Proof.
  intros Hfa Hle s1 s2.
  assert (H1 : s1 =
    set_last_motion_time t
      (set_reads (reads s ++ [ReadPIR; ReadClock])
         (if ambient_light_on s then s
          else set_log (log s ++ ["LIGHTS ON"])
                 (set_ambient_light_on true (set_green_led true s))))).
  { subst s1. rewrite motion_monitor_iteration_exec, Hfa. reflexivity. }
  assert (Hon : ambient_light_on s1 = true).
  { rewrite H1. destruct (ambient_light_on s) eqn:Hal; [exact Hal | reflexivity]. }
  assert (Hlast : last_motion_time s1 = t) by (rewrite H1; reflexivity).
  assert (Hfa1 : fire_alarm_active s1 = false).
  { rewrite H1. destruct (ambient_light_on s); exact Hfa. }
  subst s2. rewrite motion_monitor_iteration_exec.
  rewrite Hfa1, Hon, Hlast, (Qgtb_false _ _ Hle).
  split; [exact Hon|]. split; reflexivity.
Qed.

Lemma motion_restarts_timeout_witness :
  let s1 := exec (motion_monitor_iteration true 100) initial_state in
  ambient_light_on (exec (motion_monitor_iteration false 110) s1) = true.
Proof.
  intros s1.
  assert (Hle : (110 - 100 <= 10)%Q) by (vm_compute; discriminate).
  destruct (motion_restarts_timeout 100 110 initial_state eq_refl Hle) as (Hon & _).
  exact Hon.
Defined.

(** ** The light after an alarm *)

Lemma motion_polls_keep_dark h times : forall s,
  fire_alarm_active s = false -> ambient_light_on s = true ->
  green_led s = false ->
  let s' := run h (motion_polls times) s in
  fire_alarm_active s' = false /\ ambient_light_on s' = true /\
  green_led s' = false /\ log s' = log s.
Proof.
  induction times as [|t times IH]; intros s Hfa Hal Hg; cbn [motion_polls map run].
  - repeat split; assumption.
  - assert (Hstep : exec (step h (MotionPoll true t)) s =
                    set_last_motion_time t
                      (set_reads (reads s ++ [ReadPIR; ReadClock]) s)).
    { cbn [step]. rewrite motion_monitor_iteration_exec, Hfa, Hal. reflexivity. }
    rewrite Hstep.
    destruct (IH (set_last_motion_time t
                    (set_reads (reads s ++ [ReadPIR; ReadClock]) s))
                 Hfa Hal Hg) as (H1 & H2 & H3 & H4).
    repeat split; assumption.
Qed.

(** X7.  The cycle that ends an alarm switches the ambient-light output
    off but leaves the flag [ambient_light_on] alone.  If the flag was set,
    the motion monitor then treats the light as already on: however many
    polls see motion afterwards, the output stays off and nothing is
    logged (the light comes back only after a LIGHTS OFF timeout). *)
Theorem light_stays_dark_after_alarm (h : Q) (wi : Z) (times : list Q) (s : state) :
  fire_alarm_active s = true -> ambient_light_on s = true -> wi <= 90 ->
  let s1 := exec (alarm_check wi) s in
  let s2 := run h (motion_polls times) s1 in
  green_led s1 = false /\ ambient_light_on s1 = true /\
  green_led s2 = false /\ ambient_light_on s2 = true /\ log s2 = log s1.
Proof.
  intros Hfa Hal Hwi s1 s2.
  assert (H1 : s1 =
    set_lcd (lcd s ++ [LcdClear; LcdWrite 0 0 "Fire Over"; LcdWrite 0 1 "Resuming..."])
      (set_log (log s ++ ["FIRE ALARM OFF"])
         (set_green_led false (set_fire_alarm_active false s)))).
  { subst s1. rewrite alarm_check_exec, Hfa, Z.gtb_ltb.
    destruct (Z.ltb_spec 90 wi); [lia | reflexivity]. }
  assert (Hg1 : green_led s1 = false) by (rewrite H1; reflexivity).
  assert (Hal1 : ambient_light_on s1 = true) by (rewrite H1; exact Hal).
  assert (Hfa1 : fire_alarm_active s1 = false) by (rewrite H1; reflexivity).
  destruct (motion_polls_keep_dark h times s1 Hfa1 Hal1 Hg1) as (_ & H2 & H3 & H4).
  repeat split; assumption.
Qed.

Lemma light_stays_dark_after_alarm_witness :
  let s := exec (motion_monitor_iteration true 1) initial_state in
  let s_alarm := run 55 (repeat (ControlCycle hot_reading) 3) s in
  let s1 := exec (alarm_check 80) s_alarm in
  fire_alarm_active s_alarm = true /\
  green_led (run 55 (motion_polls [2; 3; 4]%Q) s1) = false /\
  ambient_light_on (run 55 (motion_polls [2; 3; 4]%Q) s1) = true.
Proof.
  intros s s_alarm s1.
  assert (Hwi : 80 <= 90) by lia.
  destruct (light_stays_dark_after_alarm 55 80 [2; 3; 4]%Q s_alarm eq_refl eq_refl Hwi)
    as (_ & _ & Hg & Hal & _).
  split; [reflexivity|]. split; [exact Hg | exact Hal].
Defined.

(** ** The blink task *)

(** X8.  A tick of the blink task never changes a global: the alarm
    flag, the door, the mode, the setpoint, the light flag, the motion
    time and the window stay as they are, and so does the log.  With the
    alarm inactive the tick changes nothing at all; with the alarm active
    it inverts each of the three outputs, so two ticks in a row restore
    them. *)
Theorem alert_tick_only_blinks (s : state) :
  let s1 := exec fire_alarm_loop_iteration s in
  let s2 := exec fire_alarm_loop_iteration s1 in
  (fire_alarm_active s1 = fire_alarm_active s /\ door_open s1 = door_open s /\
   hvac_state s1 = hvac_state s /\ desired_temp s1 = desired_temp s /\
   ambient_light_on s1 = ambient_light_on s /\
   last_motion_time s1 = last_motion_time s /\
   temperature_readings s1 = temperature_readings s /\ log s1 = log s) /\
  (fire_alarm_active s = false -> s1 = s) /\
  (fire_alarm_active s = true ->
     red_led s1 = negb (red_led s) /\ blue_led s1 = negb (blue_led s) /\
     green_led s1 = negb (green_led s) /\
     red_led s2 = red_led s /\ blue_led s2 = blue_led s /\
     green_led s2 = green_led s).
Proof.
  intros s1 s2. subst s2 s1. rewrite !fire_alarm_loop_iteration_exec.
  destruct s as [w sp al d lm fa hs r b g l lg rs].
  destruct fa; cbn; rewrite ?negb_involutive;
    repeat split; intros; try discriminate; reflexivity.
Qed.

Lemma alert_tick_only_blinks_witness :
  let s := run 55 (repeat (ControlCycle hot_reading) 3) initial_state in
  let s1 := exec fire_alarm_loop_iteration s in
  red_led s1 = true /\ red_led (exec fire_alarm_loop_iteration s1) = false /\
  exec fire_alarm_loop_iteration initial_state = initial_state.
Proof.
  intros s s1.
  destruct (alert_tick_only_blinks s) as (_ & _ & Hon).
  destruct (Hon eq_refl) as (Hr1 & _ & _ & Hr2 & _).
  destruct (alert_tick_only_blinks initial_state) as (_ & Hoff & _).
  split; [exact Hr1|]. split; [exact Hr2 | exact (Hoff eq_refl)].
Defined.

(** ** Setpoint presses *)

(** X9.  The two setpoint handlers undo each other away from the bounds:
    with the setpoint in 65..98 a blue press followed by a red press
    restores the whole state, and with it in 66..99 a red press followed
    by a blue press does; at the bound the first press is lost (from 99,
    blue then red ends at 98).  Neither handler touches anything but
    [desired_temp]. *)
Theorem setpoint_presses_undo (s : state) :
  (65 <= desired_temp s < 99 ->
     exec decrease_desired_temp (exec increase_desired_temp s) = s) /\
  (65 < desired_temp s <= 99 ->
     exec increase_desired_temp (exec decrease_desired_temp s) = s) /\
  (desired_temp s = 99 ->
     desired_temp (exec decrease_desired_temp (exec increase_desired_temp s)) = 98) /\
  (desired_temp s = 65 ->
     desired_temp (exec increase_desired_temp (exec decrease_desired_temp s)) = 66) /\
  exec increase_desired_temp s =
    set_desired_temp (desired_temp (exec increase_desired_temp s)) s /\
  exec decrease_desired_temp s =
    set_desired_temp (desired_temp (exec decrease_desired_temp s)) s.
Proof.
  rewrite !increase_desired_temp_exec, !decrease_desired_temp_exec.
  destruct s as [w sp al d lm fa hs r b g l lg rs].
  cbn [desired_temp set_desired_temp].
  destruct (Z.ltb_spec sp 99) as [Hlt|Hge];
    (rewrite Z.gtb_ltb; destruct (Z.ltb_spec 65 sp) as [Hgt|Hle]);
    cbn [desired_temp set_desired_temp temperature_readings ambient_light_on
         door_open last_motion_time fire_alarm_active hvac_state red_led
         blue_led green_led lcd log reads];
    rewrite ?Z.gtb_ltb;
    repeat match goal with
           | |- context [?a <? ?b] =>
               destruct (Z.ltb_spec a b);
               cbn [desired_temp set_desired_temp temperature_readings
                    ambient_light_on door_open last_motion_time
                    fire_alarm_active hvac_state red_led blue_led green_led
                    lcd log reads]
           end;
    repeat split; intros; unfold set_desired_temp in *; cbn in *;
    try lia; try reflexivity; f_equal; lia.
Qed.

Lemma setpoint_presses_undo_witness :
  exec decrease_desired_temp (exec increase_desired_temp initial_state) = initial_state /\
  exec increase_desired_temp (exec decrease_desired_temp initial_state) = initial_state.
Proof.
  destruct (setpoint_presses_undo initial_state) as (Hup & Hdown & _).
  split; [apply Hup | apply Hdown]; cbn; lia.
Defined.

(** ** The weather index *)

Lemma weather_index_nearest avg h :
  (inject_Z (weather_index avg h) - (1 # 2)
   <= inject_Z avg + (5 # 100) * h
   <= inject_Z (weather_index avg h) + (1 # 2))%Q.
Proof. apply py_round_nearest. Qed.

(** X10.  For a humidity between 0 and 100 the weather index lies between
    the average temperature and the average plus 5.  With the fallback
    humidity 55 it is the average plus 3 exactly, so the alarm threshold
    (index above 90) is an average above 87 and the HVAC band around the
    setpoint is shifted by 3 degrees. *)
Theorem weather_index_bounds (avg : Z) (h : Q) :
  (0 <= h <= 100)%Q ->
  avg <= weather_index avg h <= avg + 5 /\
  weather_index avg 55 = avg + 3 /\
  (weather_index avg 55 > 90 <-> avg > 87).
Proof.
  intros Hh.
  assert (H55 : weather_index avg 55 = avg + 3).
  { pose proof (weather_index_nearest avg 55) as [Hlo Hhi].
    set (r := weather_index avg 55) in *.
    assert (H1 : (inject_Z (4 * avg + 9) <= inject_Z (4 * r))%Q).
    { rewrite inject_Z_plus, !inject_Z_mult.
      change (inject_Z 4) with 4%Q. change (inject_Z 9) with 9%Q. lra. }
    assert (H2 : (inject_Z (4 * r) <= inject_Z (4 * avg + 13))%Q).
    { rewrite inject_Z_plus, !inject_Z_mult.
      change (inject_Z 4) with 4%Q. change (inject_Z 13) with 13%Q. lra. }
    rewrite <- Zle_Qle in H1, H2. lia. }
  split; [|split; [exact H55 | rewrite H55; lia]].
  pose proof (weather_index_nearest avg h) as [Hlo Hhi].
  set (r := weather_index avg h) in *.
  assert (H1 : (inject_Z (2 * avg - 1) <= inject_Z (2 * r))%Q).
  { unfold Z.sub. rewrite inject_Z_plus, !inject_Z_mult.
    change (inject_Z 2) with 2%Q. change (inject_Z (- (1))) with (-1)%Q. lra. }
  assert (H2 : (inject_Z (2 * r) <= inject_Z (2 * avg + 11))%Q).
  { rewrite inject_Z_plus, !inject_Z_mult.
    change (inject_Z 2) with 2%Q. change (inject_Z 11) with 11%Q. lra. }
  rewrite <- Zle_Qle in H1, H2. lia.
Qed.

Lemma weather_index_bounds_witness :
  80 <= weather_index 80 60 <= 85 /\ weather_index 88 55 > 90.
Proof.
  assert (Hh : (0 <= 60 <= 100)%Q) by (split; vm_compute; discriminate).
  destruct (weather_index_bounds 80 60 Hh) as (Hb & _).
  destruct (weather_index_bounds 88 60 Hh) as (_ & _ & Hiff).
  split; [exact Hb | apply Hiff; lia].
Defined.

(** ** Cycles without an average *)

(** X11.  While the window holds fewer than two samples, a control cycle
    does nothing but take its reading: no alarm or HVAC decision is made
    and nothing reaches the outputs, the display or the log, however hot
    the reading.  So the first two cycles after start-up are always
    silent. *)
Theorem no_control_before_three_samples (h : Q) (rd : dht_reading) (s : state) :
  (List.length (temperature_readings s) < 2)%nat ->
  let s' := exec (monitor_iteration h rd) s in
  s' = exec (get_average_temperature rd) s /\
  fire_alarm_active s' = fire_alarm_active s /\
  hvac_state s' = hvac_state s /\ door_open s' = door_open s /\
  red_led s' = red_led s /\ blue_led s' = blue_led s /\
  green_led s' = green_led s /\ lcd s' = lcd s /\ log s' = log s.
Proof.
  intros Hlen s'.
  assert (Hnone : eval (get_average_temperature rd) s = None).
  { rewrite get_average_temperature_eval.
    destruct (chk rd =? 0); [|reflexivity].
    unfold window_average, deque_append, deque_maxlen.
    destruct (Nat.ltb_spec (List.length (temperature_readings s)) 3); [|lia].
    rewrite length_app. cbn [List.length].
    destruct (Nat.eqb_spec (List.length (temperature_readings s) + 1) 3);
      [lia | reflexivity]. }
  assert (Hs' : s' = exec (get_average_temperature rd) s).
  { subst s'. rewrite monitor_iteration_exec, Hnone. reflexivity. }
  split; [exact Hs'|]. rewrite Hs', get_average_temperature_exec.
  destruct (chk rd =? 0); repeat split.
Qed.

Lemma no_control_before_three_samples_witness :
  let s := run 55 [ControlCycle hot_reading] initial_state in
  let s' := exec (monitor_iteration 55 hot_reading) s in
  fire_alarm_active s' = false /\ log s' = log s /\ lcd s' = lcd s.
Proof.
  intros s s'.
  assert (Hlen : (List.length (temperature_readings s) < 2)%nat) by (cbn; lia).
  destruct (no_control_before_three_samples 55 hot_reading s Hlen)
    as (_ & Hfa & _ & _ & _ & _ & _ & Hlcd & Hlog).
  split; [exact (eq_trans Hfa eq_refl)|]. split; [exact Hlog | exact Hlcd].
Defined.

(** ** What the alarm flag depends on *)

Lemma monitor_iteration_alarm h rd s :
  fire_alarm_active (exec (monitor_iteration h rd) s) =
  match eval (get_average_temperature rd) s with
  | Some avg => weather_index avg h >? 90
  | None => fire_alarm_active s
  end.
Proof.
  rewrite monitor_iteration_exec. cbv zeta.
  destruct (eval (get_average_temperature rd) s) as [avg|].
  - rewrite hvac_check_exec, alarm_check_exec, get_average_temperature_exec.
    destruct s as [w sp al d lm fa hs r b g l lg rs].
    destruct (weather_index avg h >? 90), (chk rd =? 0), fa; cbn;
      try reflexivity; destruct (_ =? hs)%string; reflexivity.
  - rewrite get_average_temperature_exec.
    destruct s as [w sp al d lm fa hs r b g l lg rs]. by_cases.
Qed.

Lemma step_alarm_flag h e s :
  fire_alarm_active (exec (step h e) s) =
  match e with
  | ControlCycle rd => fire_alarm_active (exec (monitor_iteration h rd) s)
  | _ => fire_alarm_active s
  end.
Proof.
  destruct s as [w sp al d lm fa hs r b g l lg rs].
  destruct e; cbn [step]; try reflexivity.
  - rewrite motion_monitor_iteration_exec. by_cases.
  - rewrite fire_alarm_loop_iteration_exec. by_cases.
  - rewrite toggle_door_state_exec. by_cases.
  - rewrite increase_desired_temp_exec. by_cases.
  - rewrite decrease_desired_temp_exec. by_cases.
Qed.

Lemma run_alarm_flag h evs : forall s t,
  temperature_readings s = temperature_readings t ->
  fire_alarm_active s = fire_alarm_active t ->
  fire_alarm_active (run h evs s) =
  fire_alarm_active (run h (map ControlCycle (readings_of evs)) t).
Proof.
  induction evs as [|e evs IH]; intros s t Hw Hfa; cbn [run readings_of map];
    [exact Hfa|].
  assert (Hw' := step_window h e s). assert (Hfa' := step_alarm_flag h e s).
  destruct e; cbn [readings_of map run];
    try (apply IH; [rewrite Hw'; exact Hw | rewrite Hfa'; exact Hfa]).
  apply IH.
  - rewrite Hw', (step_window h (ControlCycle rd) t), Hw. reflexivity.
  - cbn [step]. rewrite !monitor_iteration_alarm, !get_average_temperature_eval, Hw, Hfa.
    reflexivity.
Qed.

(** X12.  Only the control loop's readings decide the alarm: after any
    run from start-up the alarm flag is what it would be had the control
    cycles run alone, with the same readings in the same order.  No button
    press, motion poll or blink tick can raise or lower it. *)
Theorem alarm_depends_only_on_readings (h : Q) (evs : list event) :
  fire_alarm_active (run h evs initial_state) =
  fire_alarm_active (run h (map ControlCycle (readings_of evs)) initial_state).
Proof. apply run_alarm_flag; reflexivity. Qed.

(** ** Opening and closing the door between two cycles *)

(** X13.  With no alarm and the door closed, two door presses in a row
    leave the door closed and [hvac_state] untouched but both outputs off,
    with the lines DOOR OPEN, HVAC OFF, DOOR CLOSED in the log.  If the
    next HVAC evaluation settles on the stored mode again, it re-lights
    that mode's output without writing any line: the log's last HVAC
    entry is then still HVAC OFF. *)
Theorem door_open_close_resumes_silently (wi avg : Z) (s : state) :
  fire_alarm_active s = false -> door_open s = false ->
  let s2 := exec toggle_door_state (exec toggle_door_state s) in
  let s3 := exec (hvac_check wi avg) s2 in
  door_open s2 = false /\ hvac_state s2 = hvac_state s /\
  red_led s2 = false /\ blue_led s2 = false /\
  log s2 = log s ++ ["DOOR OPEN"; "HVAC OFF"; "DOOR CLOSED"] /\
  (hvac_target wi s = hvac_state s ->
     log s3 = log s2 /\ hvac_state s3 = hvac_state s /\
     red_led s3 = (hvac_state s =? "HEAT")%string /\
     blue_led s3 = (hvac_state s =? "AC")%string).
Proof.
  intros Hfa Hd s2 s3. subst s3 s2.
  rewrite hvac_check_exec, !toggle_door_state_exec.
  destruct s as [w sp al d lm fa hs r b g l lg rs]. cbn in Hfa, Hd. subst fa d.
  cbn. rewrite <- ?app_assoc. cbn [app].
  repeat (split; [reflexivity|]).
  unfold hvac_target. cbn. intros Ht. rewrite Ht, String.eqb_refl. cbn.
  rewrite <- ?app_assoc. repeat split.
Qed.

Lemma door_open_close_resumes_silently_witness :
  let s2 := exec toggle_door_state (exec toggle_door_state heating_state) in
  let s3 := exec (hvac_check 53 50) s2 in
  red_led heating_state = true /\ red_led s2 = false /\
  red_led s3 = true /\ log s3 = log s2.
Proof.
  intros s2 s3.
  destruct (door_open_close_resumes_silently 53 50 heating_state eq_refl eq_refl)
    as (_ & _ & Hr2 & _ & _ & Hnext).
  destruct (Hnext eq_refl) as (Hlog & _ & Hr3 & _).
  split; [reflexivity|]. split; [exact Hr2|]. split; [exact Hr3 | exact Hlog].
Defined.

(** ** The log mirrors the flags *)

Lemma count_log_app msg s tail :
  count_occ string_dec (log s ++ tail) msg =
  (count_log msg s + count_occ string_dec tail msg)%nat.
Proof. unfold count_log. apply count_occ_app. Qed.

Lemma count_hvac_line (m msg : string) :
  (exists rest, msg = String "L"%char rest) \/
  (exists rest, msg = String "F"%char rest) ->
  count_occ string_dec [("HVAC " ++ m)%string] msg = 0%nat.
Proof.
  intros Hmsg. cbn [count_occ].
  destruct (string_dec ("HVAC " ++ m) msg) as [Heq|]; [|reflexivity].
  exfalso. cbv beta iota delta [String.append] in Heq.
  destruct Hmsg as [(rest & ->)|(rest & ->)]; discriminate Heq.
Qed.

(** Reduces a goal about line counts after a step to arithmetic. *)
Ltac count_lines :=
  unfold log_balanced, count_log in *; cbn in *;
  repeat rewrite count_occ_app;
  repeat (rewrite count_hvac_line; [|solve [left; eexists; reflexivity
                                           | right; eexists; reflexivity]]);
  cbn [count_occ string_dec]; cbn; try lia.

Lemma step_light_log h e s :
  log_balanced "LIGHTS ON" "LIGHTS OFF" (ambient_light_on s) s ->
  log_balanced "LIGHTS ON" "LIGHTS OFF"
    (ambient_light_on (exec (step h e) s)) (exec (step h e) s).
Proof.
  intros Hs. destruct e; cbn [step].
  - rewrite monitor_iteration_exec, get_average_temperature_exec. cbv zeta.
    destruct (eval _ s) as [avg|].
    + rewrite hvac_check_exec, alarm_check_exec. cbv zeta.
      destruct s as [w sp al d lm fa hs r b g l lg rs].
      destruct (chk rd =? 0), (weather_index avg h >? 90), fa; cbn;
        try destruct (_ =? hs)%string; cbn; count_lines.
    + destruct s as [w sp al d lm fa hs r b g l lg rs].
      destruct (chk rd =? 0); exact Hs.
  - rewrite motion_monitor_iteration_exec.
    destruct s as [w sp al d lm fa hs r b g l lg rs].
    destruct fa, motion, al; cbn; try destruct (Qgtb _ _); cbn; count_lines.
  - rewrite fire_alarm_loop_iteration_exec.
    destruct s as [w sp al d lm fa hs r b g l lg rs]. destruct fa; exact Hs.
  - rewrite toggle_door_state_exec.
    destruct s as [w sp al d lm fa hs r b g l lg rs]. destruct d; cbn; count_lines.
  - rewrite increase_desired_temp_exec.
    destruct s as [w sp al d lm fa hs r b g l lg rs].
    cbn. destruct (sp <? 99); exact Hs.
  - rewrite decrease_desired_temp_exec.
    destruct s as [w sp al d lm fa hs r b g l lg rs].
    cbn. destruct (sp >? 65); exact Hs.
Qed.

Lemma step_alarm_log h e s :
  log_balanced "FIRE ALARM ON" "FIRE ALARM OFF" (fire_alarm_active s) s ->
  log_balanced "FIRE ALARM ON" "FIRE ALARM OFF"
    (fire_alarm_active (exec (step h e) s)) (exec (step h e) s).
Proof.
  intros Hs. destruct e; cbn [step].
  - rewrite monitor_iteration_exec, get_average_temperature_exec. cbv zeta.
    destruct (eval _ s) as [avg|].
    + rewrite hvac_check_exec, alarm_check_exec. cbv zeta.
      destruct s as [w sp al d lm fa hs r b g l lg rs].
      destruct (chk rd =? 0), (weather_index avg h >? 90), fa; cbn;
        try destruct (_ =? hs)%string; cbn; count_lines.
    + destruct s as [w sp al d lm fa hs r b g l lg rs].
      destruct (chk rd =? 0); exact Hs.
  - rewrite motion_monitor_iteration_exec.
    destruct s as [w sp al d lm fa hs r b g l lg rs].
    destruct fa, motion, al; cbn; try destruct (Qgtb _ _); cbn; count_lines.
  - rewrite fire_alarm_loop_iteration_exec.
    destruct s as [w sp al d lm fa hs r b g l lg rs]. destruct fa; exact Hs.
  - rewrite toggle_door_state_exec.
    destruct s as [w sp al d lm fa hs r b g l lg rs]. destruct d; cbn; count_lines.
  - rewrite increase_desired_temp_exec.
    destruct s as [w sp al d lm fa hs r b g l lg rs].
    cbn. destruct (sp <? 99); exact Hs.
  - rewrite decrease_desired_temp_exec.
    destruct s as [w sp al d lm fa hs r b g l lg rs].
    cbn. destruct (sp >? 65); exact Hs.
Qed.

(** X14.  The log mirrors the two flags at every moment of every run:
    the LIGHTS ON lines outnumber the LIGHTS OFF lines by one exactly
    while [ambient_light_on] is set, and the FIRE ALARM ON lines outnumber
    the FIRE ALARM OFF lines by one exactly while [fire_alarm_active] is
    set; otherwise the counts are equal.  So each kind of line is written
    once per change of its flag, never on a repeated observation. *)
Theorem log_lines_follow_flags (h : Q) (evs : list event) :
  let s := run h evs initial_state in
  count_log "LIGHTS ON" s =
    (count_log "LIGHTS OFF" s + (if ambient_light_on s then 1 else 0))%nat /\
  count_log "FIRE ALARM ON" s =
    (count_log "FIRE ALARM OFF" s + (if fire_alarm_active s then 1 else 0))%nat.
Proof.
  intros s.
  assert (Hgen : forall s0,
    log_balanced "LIGHTS ON" "LIGHTS OFF" (ambient_light_on s0) s0 /\
    log_balanced "FIRE ALARM ON" "FIRE ALARM OFF" (fire_alarm_active s0) s0 ->
    log_balanced "LIGHTS ON" "LIGHTS OFF"
      (ambient_light_on (run h evs s0)) (run h evs s0) /\
    log_balanced "FIRE ALARM ON" "FIRE ALARM OFF"
      (fire_alarm_active (run h evs s0)) (run h evs s0)).
  { induction evs as [|e evs IH]; intros s0 [Hl Ha]; cbn [run]; [split; assumption|].
    apply IH. split; [apply step_light_log, Hl | apply step_alarm_log, Ha]. }
  apply Hgen. split; reflexivity.
Qed.

(** ** An open door holds the HVAC off *)

Lemma step_open_door h e s :
  leaves_door_and_blink_alone e = true ->
  door_open s = true -> red_led s = false -> blue_led s = false ->
  door_open (exec (step h e) s) = true /\
  red_led (exec (step h e) s) = false /\
  blue_led (exec (step h e) s) = false.
Proof.
  intros He Hd Hr Hb. destruct e; try discriminate He; cbn [step].
  - rewrite monitor_iteration_exec, get_average_temperature_exec. cbv zeta.
    destruct (eval _ s) as [avg|].
    + rewrite hvac_check_exec, alarm_check_exec. cbv zeta. unfold hvac_target.
      destruct s as [w sp al d lm fa hs r b g l lg rs]. cbn in Hd, Hr, Hb. subst.
      destruct (chk rd =? 0), (weather_index avg h >? 90), fa; cbn;
        try destruct (_ =? hs)%string; repeat split.
    + destruct s as [w sp al d lm fa hs r b g l lg rs]. cbn in Hd, Hr, Hb. subst.
      destruct (chk rd =? 0); repeat split.
  - rewrite motion_monitor_iteration_exec.
    destruct s as [w sp al d lm fa hs r b g l lg rs]. cbn in Hd, Hr, Hb. subst.
    destruct fa, motion, al; cbn; try destruct (Qgtb _ _); repeat split.
  - rewrite increase_desired_temp_exec.
    destruct s as [w sp al d lm fa hs r b g l lg rs]. cbn in Hd, Hr, Hb. subst.
    cbn. destruct (sp <? 99); repeat split.
  - rewrite decrease_desired_temp_exec.
    destruct s as [w sp al d lm fa hs r b g l lg rs]. cbn in Hd, Hr, Hb. subst.
    cbn. destruct (sp >? 65); repeat split.
Qed.

(** X15.  Once the door is open with both outputs off (as a door press
    that opens it, or the entry into an alarm, leaves them), they stay
    that way until the next door press: no control cycle, setpoint press or
    motion poll closes the door or lights the heat or cool output,
    whatever the readings and the setpoint.  Only the blink task, during
    an alarm, lights them. *)
Theorem open_door_holds_outputs_off (h : Q) (evs : list event) (s : state) :
  door_open s = true -> red_led s = false -> blue_led s = false ->
  forallb leaves_door_and_blink_alone evs = true ->
  let s' := run h evs s in
  door_open s' = true /\ red_led s' = false /\ blue_led s' = false.
Proof.
  revert s. induction evs as [|e evs IH]; intros s Hd Hr Hb Hev; cbn [run].
  - repeat split; assumption.
  - cbn [forallb] in Hev. apply andb_true_iff in Hev as [He Hev].
    destruct (step_open_door h e s He Hd Hr Hb) as (Hd' & Hr' & Hb').
    apply IH; assumption.
Qed.

Lemma open_door_holds_outputs_off_witness :
  let s := exec toggle_door_state heating_state in
  let evs := repeat (ControlCycle cold_reading) 2 ++ [RedPress; MotionPoll true 3] in
  hvac_state s = "HEAT" /\ door_open (run 55 evs s) = true /\
  red_led (run 55 evs s) = false /\ hvac_state (run 55 evs s) = "OFF".
Proof.
  intros s evs.
  destruct (open_door_holds_outputs_off 55 evs s eq_refl eq_refl eq_refl eq_refl)
    as (Hd & Hr & _).
  split; [reflexivity|]. split; [exact Hd|]. split; [exact Hr | reflexivity].
Defined.
